(** * RICHIEAT: the frontend auth context and the backend bootstrap

    A shallow embedding of
      - [frontend/src/context/AuthContext.jsx]: the four asynchronous
        operations of the auth provider ([checkAuthStatus], [login],
        [register], [logout]) as computations in a state-and-exception
        monad over the browser world;
      - [frontend/src/App.jsx]: the route table, matched as the router
        matches it;
      - [backend/index.js]: the Express application as the ordered stack of
        layers that the file registers, run by Express' dispatch loop
        (the database connection, the shutdown hooks and [app.listen] play
        no part in how a request is answered and are left out).

    The properties proved about them follow the embeddings. *)

From stdpp Require Import gmap strings list sorting.
From Stdlib Require Import QArith Ascii.

Close Scope Q_scope.
Open Scope string_scope.

#[local] Set Warnings "-register-all".

(** ** JavaScript values *)

Module JS.

(** The JSON-like values that travel between the server, the API client, the
    browser storage and the React state.  Numbers are rationals: no
    operation below does arithmetic on them. *)
Inductive Value : Type :=
| VUndef
| VNull
| VBool (b : bool)
| VNum (q : Q)
| VStr (s : string)
| VArr (items : list Value)
| VObj (fields : list (string * Value)).

(** ToBoolean. *)
Definition truthy (v : Value) : bool :=
  match v with
  | VUndef | VNull => false
  | VBool b => b
  | VNum q => negb (Qeq_bool q 0)
  | VStr s => negb (String.eqb s "")
  | VArr _ | VObj _ => true
  end.

(** [a || b] and [a && b]. *)
Definition js_or (a b : Value) : Value := if truthy a then a else b.
Definition js_and (a b : Value) : Value := if truthy a then b else a.

(** Own-property lookup in an object literal: the first binding of [k]. *)
Fixpoint lookup_field (k : string) (fields : list (string * Value)) : Value :=
  match fields with
  | [] => VUndef
  | (k', v) :: rest => if String.eqb k k' then v else lookup_field k rest
  end.

(** [v.k] for a [v] that is not null or undefined.  None of the property
    names read in this development ([success], [advisor], [token],
    [message], [id]) exists on a primitive or on an array. *)
Definition field (v : Value) (k : string) : Value :=
  match v with
  | VObj fs => lookup_field k fs
  | _ => VUndef
  end.

Definition nullish (v : Value) : bool :=
  match v with
  | VUndef | VNull => true
  | _ => false
  end.

(** [v?.k] *)
Definition opt_field (v : Value) (k : string) : Value :=
  if nullish v then VUndef else field v k.


(** What a client reads back from [JSON.stringify v]: a property whose
    value is undefined is left out, an undefined array element becomes
    null. *)
Fixpoint wire (v : Value) : Value :=
  match v with
  | VArr items =>
      VArr (map (fun x => match wire x with VUndef => VNull | y => y end) items)
  | VObj fs =>
      VObj (flat_map (fun kv => match wire (snd kv) with
                                | VUndef => []
                                | y => [(fst kv, y)]
                                end) fs)
  | other => other
  end.

(** An Error object, given by its own fields ([message], [status],
    [stack], ...): what the framework and the server's layers raise. *)
Record Exn : Type := mkExn { exn_fields : list (string * Value) }.

Definition exn_field (e : Exn) (k : string) : Value :=
  lookup_field k (exn_fields e).

(** The TypeError of reading property [k] of [v], which is null or
    undefined (its message is the one of V8). *)
Definition TypeError (v : Value) (k : string) : Exn :=
  mkExn [("name", VStr "TypeError");
         ("message", VStr ("Cannot read properties of "
                           ++ match v with VNull => "null" | _ => "undefined" end
                           ++ " (reading '" ++ k ++ "')"))].

End JS.

Export JS.

(** ** frontend/src/context/AuthContext.jsx *)

Module AuthContext.

(** Completion of an asynchronous operation: the promise resolves with a
    value or rejects.  What it rejects with (what is thrown and caught) is
    any value: an Error object as a rule, but also null or undefined. *)
Inductive Res (A : Type) : Type :=
| Ok (a : A)
| Throw (e : Value).
Arguments Ok {A} a.
Arguments Throw {A} e.

(** [localStorage]. *)
Abbreviation Storage := (gmap string string).

(** The calls the provider makes to [authAPI] (services/api). *)
Inductive Endpoint : Type :=
| GetProfile
| Login (credentials : Value)
| Register (userData : Value)
| Logout.

(** What the provider does to the outside: toasts, console output and API
    calls, each API call with the way it completed. *)
Inductive Event : Type :=
| ToastSuccess (msg : Value)
| ToastError (msg : Value)
| ConsoleError (label : string) (e : Value)
| ApiCall (ep : Endpoint) (outcome : Res Value).

(** The three [useState] cells of the provider, the browser storage, and the
    events so far (oldest first). *)
Record World : Type := mkWorld {
  storage : Storage;
  user : Value;
  loading : bool;
  isAuthenticated : bool;
  events : list Event
}.

(** The state the provider starts in: [useState(null)], [useState(true)],
    [useState(false)]. *)
Definition initial (st : Storage) : World :=
  {| storage := st; user := VNull; loading := true;
     isAuthenticated := false; events := [] |}.

(** [services/api] is imported, not defined, by AuthContext.jsx.  A call
    resolves with the server's JSON answer or rejects; the client module
    shares [localStorage] with the provider ([getProfile] takes no token
    argument), so a call may read and write the storage. *)
Record AuthAPI : Type := mkAPI {
  authAPI_getProfile : Storage -> Res Value * Storage;
  authAPI_login : Value -> Storage -> Res Value * Storage;
  authAPI_register : Value -> Storage -> Res Value * Storage;
  authAPI_logout : Storage -> Res Value * Storage
}.

(** *** The monad of an async function body *)

Definition M (A : Type) : Type := World -> Res A * World.

#[global] Instance M_ret : MRet M := fun A a w => (Ok a, w).

#[global] Instance M_bind : MBind M := fun A B f m w =>
  match m w with
  | (Ok a, w') => f a w'
  | (Throw e, w') => (Throw e, w')
  end.

Definition throw {A} (e : Value) : M A := fun w => (Throw e, w).

(** An Error object as a value. *)
Definition error_object (e : Exn) : Value := VObj (exn_fields e).

(** [try { body } catch (error) { handler } finally { fin }] where [body]
    and [handler] end in [return].  The finally block runs on every path; it
    keeps the completion of the try/catch unless it throws itself. *)
Definition try_catch_finally {A} (body : M A) (handler : Value -> M A)
    (fin : M unit) : M A := fun w =>
  let '(r, w1) := body w in
  let '(r2, w2) := match r with
                   | Ok a => (Ok a, w1)
                   | Throw e => handler e w1
                   end in
  match fin w2 with
  | (Ok _, w3) => (r2, w3)
  | (Throw e, w3) => (Throw e, w3)
  end.

Definition modify (f : World -> World) : M unit := fun w => (Ok tt, f w).

Definition set_storage (st : Storage) (w : World) : World :=
  {| storage := st; user := user w; loading := loading w;
     isAuthenticated := isAuthenticated w; events := events w |}.

Definition emit (ev : Event) : M unit := modify (fun w =>
  {| storage := storage w; user := user w; loading := loading w;
     isAuthenticated := isAuthenticated w; events := events w ++ [ev] |}).

(** [v.k]: a TypeError when [v] is null or undefined. *)
Definition prop (v : Value) (k : string) : M Value :=
  if nullish v then throw (error_object (TypeError v k)) else mret (field v k).

(** State setters. *)
Definition setUser (v : Value) : M unit := modify (fun w =>
  {| storage := storage w; user := v; loading := loading w;
     isAuthenticated := isAuthenticated w; events := events w |}).

Definition setLoading (b : bool) : M unit := modify (fun w =>
  {| storage := storage w; user := user w; loading := b;
     isAuthenticated := isAuthenticated w; events := events w |}).

Definition setIsAuthenticated (b : bool) : M unit := modify (fun w =>
  {| storage := storage w; user := user w; loading := loading w;
     isAuthenticated := b; events := events w |}).

(** [localStorage.getItem(k)]: the stored string, or null. *)
Definition localStorage_getItem (k : string) : M Value := fun w =>
  (Ok (match storage w !! k with Some s => VStr s | None => VNull end), w).

Definition localStorage_setItem (k : string) (s : string) : M unit :=
  modify (fun w => set_storage (<[k := s]> (storage w)) w).

Definition localStorage_removeItem (k : string) : M unit :=
  modify (fun w => set_storage (delete k (storage w)) w).

Definition toast_success (msg : string) : M unit := emit (ToastSuccess (VStr msg)).
Definition toast_error (msg : Value) : M unit := emit (ToastError msg).
Definition console_error (label : string) (e : Value) : M unit :=
  emit (ConsoleError label e).

(** [await authAPI.f(...)]: the call runs against the current storage, its
    completion is recorded, and a rejection is thrown at the await. *)
Definition await (ep : Endpoint) (call : Storage -> Res Value * Storage) : M Value :=
  fun w =>
    let '(r, st') := call (storage w) in
    let w' := {| storage := st'; user := user w; loading := loading w;
                 isAuthenticated := isAuthenticated w;
                 events := events w ++ [ApiCall ep r] |} in
    (r, w').

Section Provider.

(** The API client, and the two conversions of the language that the
    provider applies to server data before storing it: ToString (of
    [localStorage.setItem]'s argument) and [JSON.stringify]. *)
Variable api : AuthAPI.
Variable ToString : Value -> string.
Variable JSON_stringify : Value -> Value.

Definition checkAuthStatus : M unit :=
  try_catch_finally
    (token ← localStorage_getItem "token";
     storedUser ← localStorage_getItem "user";
     if truthy (js_and token storedUser) then
       response ← await GetProfile (authAPI_getProfile api);
       success ← prop response "success";
       if truthy success then
         advisor ← prop response "advisor";
         _ ← setUser advisor;
         setIsAuthenticated true
       else
         _ ← localStorage_removeItem "token";
         localStorage_removeItem "user"
     else mret tt)
    (fun error =>
       _ ← localStorage_removeItem "token";
       localStorage_removeItem "user")
    (setLoading false).

Definition login (credentials : Value) : M Value :=
  try_catch_finally
    (_ ← setLoading true;
     response ← await (Login credentials) (authAPI_login api credentials);
     success ← prop response "success";
     if truthy success then
       token ← prop response "token";
       _ ← localStorage_setItem "token" (ToString token);
       advisor ← prop response "advisor";
       _ ← localStorage_setItem "user" (ToString (JSON_stringify advisor));
       _ ← setUser advisor;
       _ ← setIsAuthenticated true;
       _ ← toast_success "Login successful!";
       mret (VObj [("success", VBool true); ("user", advisor)])
     else
       message ← prop response "message";
       _ ← toast_error (js_or message (VStr "Login failed"));
       mret (VObj [("success", VBool false); ("message", message)]))
    (fun error =>
       _ ← console_error "Login error:" error;
       error_message ← prop error "message";
       let message := js_or error_message
                            (VStr "Login failed. Please try again.") in
       _ ← toast_error message;
       mret (VObj [("success", VBool false); ("message", message)]))
    (setLoading false).

Definition register (userData : Value) : M Value :=
  try_catch_finally
    (_ ← setLoading true;
     response ← await (Register userData) (authAPI_register api userData);
     success ← prop response "success";
     if truthy success then
       token ← prop response "token";
       _ ← localStorage_setItem "token" (ToString token);
       advisor ← prop response "advisor";
       _ ← localStorage_setItem "user" (ToString (JSON_stringify advisor));
       _ ← setUser advisor;
       _ ← setIsAuthenticated true;
       _ ← toast_success "Registration successful!";
       mret (VObj [("success", VBool true); ("user", advisor)])
     else
       message ← prop response "message";
       _ ← toast_error (js_or message (VStr "Registration failed"));
       mret (VObj [("success", VBool false); ("message", message)]))
    (fun error =>
       _ ← console_error "Registration error:" error;
       error_message ← prop error "message";
       let message := js_or error_message
                            (VStr "Registration failed. Please try again.") in
       _ ← toast_error message;
       mret (VObj [("success", VBool false); ("message", message)]))
    (setLoading false).

Definition logout : M Value :=
  try_catch_finally
    (_ ← setLoading true;
     _ ← await Logout (authAPI_logout api);
     _ ← setUser VNull;
     _ ← setIsAuthenticated false;
     _ ← toast_success "Logged out successfully!";
     mret (VObj [("success", VBool true)]))
    (fun error =>
       _ ← console_error "Logout error:" error;
       _ ← setUser VNull;
       _ ← setIsAuthenticated false;
       mret (VObj [("success", VBool true)]))
    (setLoading false).

(** The two operations that sign an advisor in, and the API call each one
    makes. *)
Inductive AuthOp : Type := OpLogin | OpRegister.

Definition run_op (op : AuthOp) : Value -> M Value :=
  match op with
  | OpLogin => login
  | OpRegister => register
  end.

Definition api_op (op : AuthOp) : Value -> Storage -> Res Value * Storage :=
  match op with
  | OpLogin => authAPI_login api
  | OpRegister => authAPI_register api
  end.

End Provider.

(** A call failed: it was rejected, or it resolved with an answer whose
    [success] is not truthy. *)
Definition call_failed (r : Res Value) : bool :=
  match r with
  | Ok response => negb (truthy (field response "success"))
  | Throw _ => true
  end.

(** A call was rejected with null or undefined. *)
Definition rejected_with_nothing (r : Res Value) : bool :=
  match r with
  | Ok _ => false
  | Throw e => nullish e
  end.

(** [localStorage.getItem(k)] as a value. *)
Definition stored (st : Storage) (k : string) : Value :=
  match st !! k with
  | Some s => VStr s
  | None => VNull
  end.

(** *** Sample worlds and servers *)

Definition sample_advisor : Value :=
  VObj [("id", VStr "a1"); ("email", VStr "a@x.com")].

(** A server that accepts everything, behind a client that leaves the
    storage alone. *)
Definition accepting_api : AuthAPI :=
  {| authAPI_getProfile := fun st =>
       (Ok (VObj [("success", VBool true); ("advisor", sample_advisor)]), st);
     authAPI_login := fun _ st =>
       (Ok (VObj [("success", VBool true); ("token", VStr "jwt");
                  ("advisor", sample_advisor)]), st);
     authAPI_register := fun _ st =>
       (Ok (VObj [("success", VBool true); ("token", VStr "jwt");
                  ("advisor", sample_advisor)]), st);
     authAPI_logout := fun st => (Ok (VObj [("success", VBool true)]), st) |}.

(** A server that refuses everything with a 401 answer. *)
Definition refusing_api : AuthAPI :=
  let refusal := VObj [("success", VBool false);
                       ("message", VStr "Invalid credentials")] in
  {| authAPI_getProfile := fun st => (Ok refusal, st);
     authAPI_login := fun _ st => (Ok refusal, st);
     authAPI_register := fun _ st => (Ok refusal, st);
     authAPI_logout := fun st => (Ok refusal, st) |}.

(** A server that cannot be reached: every call is rejected. *)
Definition unreachable_api : AuthAPI :=
  let failure := VObj [("message", VStr "Network Error")] in
  {| authAPI_getProfile := fun st => (Throw failure, st);
     authAPI_login := fun _ st => (Throw failure, st);
     authAPI_register := fun _ st => (Throw failure, st);
     authAPI_logout := fun st => (Throw failure, st) |}.

(** An API client whose calls are all rejected with undefined. *)
Definition silent_api : AuthAPI :=
  {| authAPI_getProfile := fun st => (Throw VUndef, st);
     authAPI_login := fun _ st => (Throw VUndef, st);
     authAPI_register := fun _ st => (Throw VUndef, st);
     authAPI_logout := fun st => (Throw VUndef, st) |}.

Definition signed_in_storage : Storage :=
  {[ "token" := "jwt"; "user" := "advisor a1" ]}.

Definition token_only_storage : Storage := {[ "token" := "jwt" ]}.

(** The provider after a successful login. *)
Definition signed_in : World :=
  {| storage := signed_in_storage; user := sample_advisor; loading := false;
     isAuthenticated := true; events := [] |}.

Definition sample_credentials : Value :=
  VObj [("email", VStr "a@x.com"); ("password", VStr "wrong")].

(** The conversions, for the samples: only strings are stored as they are. *)
Definition sample_ToString (v : Value) : string :=
  match v with
  | VStr s => s
  | _ => "[object Object]"
  end.

Definition sample_stringify (v : Value) : Value :=
  match v with
  | VUndef => VUndef
  | _ => VStr "advisor a1"
  end.

(** *** Sign-in, reload *)

(** The API call of a sign-in operation, and what it tells the user when
    it succeeds. *)
Definition endpoint_of (op : AuthOp) (arg : Value) : Endpoint :=
  match op with
  | OpLogin => Login arg
  | OpRegister => Register arg
  end.

Definition success_text (op : AuthOp) : string :=
  match op with
  | OpLogin => "Login successful!"
  | OpRegister => "Registration successful!"
  end.

(** A page reload: a new provider, in its initial state, over the browser
    storage that the old one leaves behind. *)
Definition reload (w : World) : World := initial (storage w).

(** The storage that [checkAuthStatus] works on after its API call, if it
    makes one. *)
Definition after_profile_call (api : AuthAPI) (st : Storage) : Storage :=
  if truthy (js_and (stored st "token") (stored st "user"))
  then (authAPI_getProfile api st).2
  else st.

End AuthContext.

(** ** backend/index.js *)

Module Server.

Inductive Method : Type := GET | HEAD | POST | PUT | PATCH | DELETE | OPTIONS.

Definition method_name (m : Method) : string :=
  match m with
  | GET => "GET" | HEAD => "HEAD" | POST => "POST" | PUT => "PUT"
  | PATCH => "PATCH" | DELETE => "DELETE" | OPTIONS => "OPTIONS"
  end.

Definition is_OPTIONS (m : Method) : bool :=
  match m with OPTIONS => true | _ => false end.

Definition is_POST (m : Method) : bool :=
  match m with POST => true | _ => false end.

Definition is_HEAD (m : Method) : bool :=
  match m with HEAD => true | _ => false end.

(** The media type of the Content-Type header, parameters aside. *)
Inductive MediaType : Type :=
| ApplicationJson
| FormUrlencoded
| OtherMedia (name : string).

(** The entity a request carries, identity-encoded and in UTF-8: its length
    in bytes and what the two parsers make of its text.  [payload_json] is
    the result of [JSON.parse] (None: a syntax error); [payload_form] is the
    result of the query-string parser (None: more parameters than it
    accepts). *)
Record Payload : Type := mkPayload {
  payload_length : Z;
  payload_json : option Value;
  payload_form : option Value
}.

(** A request as it comes off the socket.  It has no conditional headers
    (If-None-Match, If-Modified-Since), on which Express may answer a GET
    or HEAD with 304 instead. *)
Record Message : Type := mkMessage {
  method : Method;
  path : string;                    (* req.path *)
  query : string;                   (* what follows the path in req.url *)
  ip : string;
  origin : option string;           (* the Origin header *)
  content_type : option MediaType;
  payload : option Payload          (* None: no Content-Length, no body *)
}.

(** The request object that the layers share and extend. *)
Record Request : Type := mkRequest {
  message_of :> Message;
  requestId : Value;                (* req.requestId *)
  advisor : Value;                  (* req.advisor *)
  body : Value;                     (* req.body *)
  body_parsed : bool                (* req._body *)
}.

Definition url (r : Request) : string := path r ++ query r.

Record Response : Type := mkResponse {
  statusCode : Value;
  headers : list (string * string);
  sent : option Value               (* the JSON body, as the client reads it *)
}.

Record LogEntry : Type := mkLog { level : string; parts : list Value }.

(** The request, the response under construction and the log. *)
Record Conn : Type := mkConn {
  req : Request;
  res : Response;
  logs : list LogEntry
}.

Definition start (m : Message) : Conn :=
  {| req := {| message_of := m; requestId := VUndef; advisor := VUndef;
               body := VUndef; body_parsed := false |};
     res := {| statusCode := VNum 200; headers := []; sent := None |};
     logs := [] |}.

Definition with_req (f : Request -> Request) (c : Conn) : Conn :=
  {| req := f (req c); res := res c; logs := logs c |}.

Definition with_res (f : Response -> Response) (c : Conn) : Conn :=
  {| req := req c; res := f (res c); logs := logs c |}.

Definition log (lvl : string) (ps : list Value) (c : Conn) : Conn :=
  {| req := req c; res := res c; logs := logs c ++ [mkLog lvl ps] |}.

Definition set_requestId (v : Value) (r : Request) : Request :=
  {| message_of := message_of r; requestId := v; advisor := advisor r;
     body := body r; body_parsed := body_parsed r |}.

Definition set_body (v : Value) (parsed : bool) (r : Request) : Request :=
  {| message_of := message_of r; requestId := requestId r;
     advisor := advisor r; body := v; body_parsed := parsed |}.

(** [res.statusCode = code] and [res.setHeader(k, v)]. *)
Definition set_statusCode (code : Value) (c : Conn) : Conn :=
  with_res (fun r => {| statusCode := code; headers := headers r; sent := sent r |}) c.

Definition setHeader (k v : string) (c : Conn) : Conn :=
  with_res (fun r => {| statusCode := statusCode r;
                        headers := headers r ++ [(k, v)]; sent := sent r |}) c.

(** The status codes that a response can have: the integers from 100 to
    999.  [res.status] (as of Express 5) takes no other value, and Node
    writes no other status line. *)
Definition is_integer (v : Value) : bool :=
  match v with
  | VNum q => (Qden (Qred q) =? 1)%positive
  | _ => false
  end.

Definition status_code (v : Value) : option Z :=
  match v with
  | VNum q =>
      let n := Qnum (Qred q) in
      if is_integer v && (100 <=? n)%Z && (n <=? 999)%Z then Some n else None
  | _ => None
  end.

(** What is thrown for any other value: a TypeError when it is not an
    integer, a RangeError when it is out of range.  Neither has a [status];
    the message, which goes on to quote the value, is cut short. *)
Definition invalid_status (code : Value) : Exn :=
  mkExn [("name", VStr (if is_integer code then "RangeError" else "TypeError"));
         ("message", VStr "Invalid status code")].

(** The statuses whose response has no body: 1xx, 204, 205 and 304. *)
Definition bodiless (n : Z) : bool :=
  (n <? 200)%Z || (n =? 204)%Z || (n =? 205)%Z || (n =? 304)%Z.

(** [res.status(code)]: sets the status, or throws. *)
Definition status (code : Value) (c : Conn) : Exn + Conn :=
  match status_code code with
  | Some _ => inr (set_statusCode code c)
  | None => inl (invalid_status code)
  end.

(** A field of the JSON body of a response; undefined when there is no
    body or no such field. *)
Definition body_field (r : Response) (k : string) : Value :=
  match sent r with
  | Some b => field b k
  | None => VUndef
  end.

(** What a layer does with a request: [next()], [next(err)] (or a throw),
    or ending the response. *)
Inductive Outcome : Type :=
| Next (c : Conn)
| NextErr (e : Exn) (c : Conn)
| End (c : Conn).

Definition conn_of (o : Outcome) : Conn :=
  match o with
  | Next c | NextErr _ c | End c => c
  end.

(** [res.json(v)]: the response ends, with [v] as its body unless the
    request is a HEAD or the status is one that has no body.  With a
    [res.statusCode] that is no status code the head cannot be written and
    the call throws. *)
Definition json (v : Value) (c : Conn) : Outcome :=
  match status_code (statusCode (res c)) with
  | Some n =>
      End (with_res (fun r =>
             {| statusCode := statusCode r; headers := headers r;
                sent := if is_HEAD (method (req c)) || bodiless n
                        then None else Some (wire v) |}) c)
  | None => NextErr (invalid_status (statusCode (res c))) c
  end.

(** [res.status(code).json(v)] in a handler; what it throws goes to the
    error handlers. *)
Definition status_json (code v : Value) (c : Conn) : Outcome :=
  match status code c with
  | inr c' => json v c'
  | inl e => NextErr e c
  end.

Inductive Handler : Type :=
| Normal (h : Conn -> Outcome)
| ErrorH (h : Exn -> Conn -> Outcome).

(** The layers of the application, in the order of index.js. *)
Inductive Stage : Type :=
| SAddRequestId | SMorgan | SRequestLogger | SSecurityLogger
| SCors | SJson | SUrlencoded
| SHealth | SAuth | SClients
| SErrorHandler | SNotFound.


Definition is_route (s : Stage) : bool :=
  match s with
  | SHealth | SAuth | SClients => true
  | _ => false
  end.

Record Layer : Type := mkLayer {
  name : Stage;
  matches : Request -> bool;
  handle : Handler
}.

(** The statuses that Express' final handler takes from an error (a number
    from 400 and below 600) and from the response (one from 400 to 599). *)
Definition error_status (v : Value) : bool :=
  match v with
  | VNum q => Qle_bool 400 q && negb (Qle_bool 600 q)
  | _ => false
  end.

Definition response_error_status (v : Value) : bool :=
  match v with
  | VNum q => Qle_bool 400 q && Qle_bool q 599
  | _ => false
  end.

(** Express' answer once the stack is exhausted, an HTML page and no JSON:
    404, or with an error pending the [status] or else the [statusCode] of
    the error, else the status that the response has, else 500. *)
Definition finalhandler (pending : option Exn) (c : Conn) : Conn :=
  match pending with
  | None => set_statusCode (VNum 404) c
  | Some e =>
      set_statusCode
        (if error_status (exn_field e "status") then exn_field e "status"
         else if error_status (exn_field e "statusCode")
         then exn_field e "statusCode"
         else if response_error_status (statusCode (res c))
         then statusCode (res c)
         else VNum 500) c
  end.

(** Express' dispatch: the layers are visited in registration order; a
    layer runs when its path and method match and its arity fits (error
    handlers only with a pending error, the others only without).  The
    result is the list of layers that ran, and the finished connection. *)
Fixpoint dispatch (stack : list Layer) (pending : option Exn) (c : Conn)
    : list Stage * Conn :=
  match stack with
  | [] => ([], finalhandler pending c)
  | l :: rest =>
      let continue (o : Outcome) : list Stage * Conn :=
        match o with
        | Next c' => let '(t, c'') := dispatch rest None c' in (name l :: t, c'')
        | NextErr e c' => let '(t, c'') := dispatch rest (Some e) c' in (name l :: t, c'')
        | End c' => ([name l], c')
        end in
      if matches l (req c) then
        match handle l, pending with
        | Normal h, None => continue (h c)
        | ErrorH h, Some e => continue (h e c)
        | _, _ => dispatch rest pending c
        end
      else dispatch rest pending c
  end.




(** *** Path matching (case-insensitive, as Express routes by default) *)

Definition lower_ascii (a : Ascii.ascii) : Ascii.ascii :=
  let n := Ascii.nat_of_ascii a in
  if (65 <=? n)%nat && (n <=? 90)%nat then Ascii.ascii_of_nat (n + 32) else a.

Fixpoint lower (s : string) : string :=
  match s with
  | EmptyString => EmptyString
  | String a rest => String (lower_ascii a) (lower rest)
  end.

(** The rest of [p] after its first [n] characters. *)
Definition after (n : nat) (p : string) : string :=
  String.substring n (String.length p - n) p.

(** [app.get('/', ...)]: the path is the root. *)
Definition at_root (p : string) : bool :=
  String.eqb p "/" || String.eqb p "".

(** The path that a router mounted at [mount] sees: what follows the mount
    point, [/] when nothing does. *)
Definition below (mount p : string) : string :=
  let rest := after (String.length mount) p in
  if String.eqb rest "" then "/" else rest.

(** [app.use(mount, ...)]: the path is [mount] itself or lies below it. *)
Definition mounted_at (mount p : string) : bool :=
  String.prefix mount (lower p) &&
  (let rest := after (String.length mount) p in
   String.eqb rest "" || String.prefix "/" rest).

(** *** The libraries' middleware *)

Record CorsOptions : Type := mkCors {
  cors_origin : list string;
  cors_credentials : bool
}.

(** The [cors] package with a list of origins: it only sets headers, the
    Access-Control-Allow-Origin one when the request's origin is on the
    list; it answers a preflight (OPTIONS) itself with 204 and lets every
    other request through. *)
Definition cors (o : CorsOptions) (c : Conn) : Outcome :=
  let allow (c : Conn) : Conn :=
    match origin (req c) with
    | Some og =>
        if existsb (String.eqb og) (cors_origin o)
        then setHeader "Access-Control-Allow-Origin" og c
        else c
    | None => c
    end in
  let credentials (c : Conn) : Conn :=
    if cors_credentials o
    then setHeader "Access-Control-Allow-Credentials" "true" c
    else c in
  let c1 := setHeader "Vary" "Origin" (credentials (allow c)) in
  if is_OPTIONS (method (req c)) then
    End (setHeader "Content-Length" "0"
           (set_statusCode (VNum 204)
              (setHeader "Access-Control-Allow-Methods"
                         "GET,HEAD,PUT,PATCH,POST,DELETE" c1)))
  else Next c1.

(** ['10mb'] as the body parsers read it. *)
Definition bytes_mb (n : Z) : Z := n * 1024 * 1024.

(** The errors of the body parsers (http-errors). *)
Definition http_error (code : Q) (msg : string) : Exn :=
  mkExn [("message", VStr msg); ("status", VNum code)].

Definition is_container (v : Value) : bool :=
  match v with
  | VArr _ | VObj _ => true
  | _ => false
  end.

Definition is_json_type (ct : option MediaType) : bool :=
  match ct with Some ApplicationJson => true | _ => false end.

Definition is_form_type (ct : option MediaType) : bool :=
  match ct with Some FormUrlencoded => true | _ => false end.

(** What reading a body comes to: the parser leaves the request alone,
    yields the parsed value, or fails. *)
Inductive Read : Type :=
| Skip
| Parsed (v : Value)
| Failed (e : Exn).

(** The JSON reader: only a request that has a body and whose Content-Type
    is JSON is read; reading fails with 413 beyond the limit, parsing with
    400 (in strict mode also when the text is not an object or an array). *)
Definition read_json (limit : Z) (strict : bool) (m : Message) : Read :=
  match payload m with
  | None => Skip
  | Some pl =>
      if negb (is_json_type (content_type m)) then Skip
      else if (limit <? payload_length pl)%Z
      then Failed (http_error 413 "request entity too large")
      else if (payload_length pl =? 0)%Z then Parsed (VObj [])
      else match payload_json pl with
           | Some v =>
               if strict && negb (is_container v)
               then Failed (http_error 400 "Unexpected token in JSON")
               else Parsed v
           | None => Failed (http_error 400 "Unexpected token in JSON")
           end
  end.

(** The form reader: the same for URL-encoded bodies. *)
Definition read_form (limit : Z) (m : Message) : Read :=
  match payload m with
  | None => Skip
  | Some pl =>
      if negb (is_form_type (content_type m)) then Skip
      else if (limit <? payload_length pl)%Z
      then Failed (http_error 413 "request entity too large")
      else if (payload_length pl =? 0)%Z then Parsed (VObj [])
      else match payload_form pl with
           | Some v => Parsed v
           | None => Failed (http_error 413 "too many parameters")
           end
  end.

(** The middleware around a reader: a body that an earlier parser took is
    left alone; [req.body] defaults to an empty object; a failure goes to
    the error handlers. *)
Definition body_parser (read : Message -> Read) (c : Conn) : Outcome :=
  if body_parsed (req c) then Next c
  else
    let c0 := with_req (fun r => set_body (js_or (body r) (VObj [])) false r) c in
    match read (req c) with
    | Skip => Next c0
    | Parsed v => Next (with_req (set_body v true) c0)
    | Failed e => NextErr e (with_req (fun r => set_body (body r) true r) c0)
    end.

(** [express.json({limit, strict})] and [express.urlencoded({extended, limit})]. *)
Definition express_json (limit : Z) (strict : bool) : Conn -> Outcome :=
  body_parser (read_json limit strict).

Definition express_urlencoded (extended : bool) (limit : Z) : Conn -> Outcome :=
  body_parser (read_form limit).

(** *** What index.js imports and reads *)

(** The process environment and the readings the health probe takes. *)
Record Env : Type := mkEnv {
  process_env_NODE_ENV : option string;
  now_ISO : string;                 (* new Date().toISOString() *)
  readyState : Z;                   (* mongoose.connection.readyState *)
  uptime : Q                        (* process.uptime() *)
}.

(** [const NODE_ENV = process.env.NODE_ENV || 'development'] *)
Definition NODE_ENV (env : Env) : string :=
  match process_env_NODE_ENV env with
  | Some s => if String.eqb s "" then "development" else s
  | None => "development"
  end.

(** The four middleware functions that index.js imports from
    middleware/requestLogger. *)
Record RequestLogger : Type := mkRequestLogger {
  addRequestId : Conn -> Outcome;
  morganMiddleware : Conn -> Outcome;
  requestLogger : Conn -> Outcome;
  securityLogger : Conn -> Outcome
}.

(** Modelled from the spec: middleware/requestLogger is not among the
    sources.  Request-ID assignment generates a correlation ID, attaches it
    to the request (the handlers of index.js read it as [req.requestId])
    and echoes it in a header of every response; access logging records the
    request; security logging flags suspicious requests without blocking.
    [id] is the ID generated for the request at hand. *)
Definition spec_requestLogger (id : string) : RequestLogger :=
  {| addRequestId := fun c =>
       Next (setHeader "X-Request-ID" id (with_req (set_requestId (VStr id)) c));
     morganMiddleware := fun c =>
       Next (log "http" [VStr (method_name (method (req c))); VStr (url (req c))] c);
     requestLogger := fun c =>
       Next (log "info" [VStr (method_name (method (req c))); VStr (url (req c));
                         requestId (req c)] c);
     securityLogger := fun c => Next c |}.

(** A router mounted with [app.use(mount, require(...))]: which method and
    sub-path it has a route for, and what that route does.  routes/auth and
    routes/clients are not among the sources. *)
Record Router : Type := mkRouter {
  has_route : Method -> string -> bool;
  route : Conn -> Outcome
}.

(** A router without routes. *)
Definition no_routes : Router :=
  {| has_route := fun _ _ => false; route := Next |}.

(** *** index.js *)

Definition use (s : Stage) (h : Conn -> Outcome) : Layer :=
  {| name := s; matches := fun _ => true; handle := Normal h |}.

Definition use_error (s : Stage) (h : Exn -> Conn -> Outcome) : Layer :=
  {| name := s; matches := fun _ => true; handle := ErrorH h |}.

(** [app.get(p, h)]; a GET route also serves HEAD. *)
Definition get_root (s : Stage) (h : Conn -> Outcome) : Layer :=
  {| name := s;
     matches := fun r =>
       match method r with
       | GET | HEAD => at_root (path r)
       | _ => false
       end;
     handle := Normal h |}.

(** [app.use(mount, router)]: the layer takes the requests below [mount]
    for which the router has a route; the others pass through it. *)
Definition use_router (s : Stage) (mount : string) (rt : Router) : Layer :=
  {| name := s;
     matches := fun r =>
       mounted_at mount (path r) &&
       has_route rt (method r) (below mount (path r));
     handle := Normal (route rt) |}.

Definition cors_options (env : Env) : CorsOptions :=
  {| cors_origin :=
       match process_env_NODE_ENV env with
       | Some "production" => ["https://yourdomain.com"]
       | _ => ["http://localhost:3000"; "http://localhost:5173";
               "http://localhost:5174"]
       end;
     cors_credentials := true |}.

(** Health check route. *)
Definition health (env : Env) (c : Conn) : Outcome :=
  let healthStatus :=
    VObj [("message", VStr "RICHIEAT Backend API is running!");
          ("version", VStr "1.0.0");
          ("status", VStr "active");
          ("timestamp", VStr (now_ISO env));
          ("environment", VStr (NODE_ENV env));
          ("database", VStr (if (readyState env =? 1)%Z
                             then "connected" else "disconnected"));
          ("uptime", VNum (uptime env))] in
  json healthStatus (log "debug" [VStr "Health check requested"] c).

(** Global error handling middleware. *)
Definition errorHandler (env : Env) (err : Exn) (c : Conn) : Outcome :=
  let advisorId := opt_field (advisor (req c)) "id" in
  let c1 := log "error"
              ([VStr "Unhandled error in "; VStr (method_name (method (req c)));
                VStr " "; VStr (url (req c))]
               ++ (if truthy advisorId
                   then [VStr " (Advisor: "; advisorId; VStr ")"]
                   else [VStr ""])
               ++ [VStr ": "; exn_field err "message"]) c in
  let c2 := log "error" [exn_field err "stack"] c1 in
  let message :=
    if String.eqb (NODE_ENV env) "production"
    then VStr "Internal server error"
    else exn_field err "message" in
  status_json (js_or (exn_field err "status") (VNum 500))
    (VObj [("success", VBool false);
           ("message", VStr "Something went wrong!");
           ("error", message);
           ("requestId", requestId (req c))]) c2.

(** 404 handler. *)
Definition notFoundHandler (c : Conn) : Outcome :=
  let c1 := log "warn"
              [VStr "404 - Route not found: "; VStr (method_name (method (req c)));
               VStr " "; VStr (url (req c)); VStr " from IP: "; VStr (ip (req c))] c in
  status_json (VNum 404)
    (VObj [("success", VBool false);
           ("message", VStr "Route not found");
           ("requestId", requestId (req c))]) c1.

(** The application: the layers in the order index.js registers them. *)
Definition app (env : Env) (mw : RequestLogger) (auth clients : Router)
    : list Layer :=
  [ use SAddRequestId (addRequestId mw);
    use SMorgan (morganMiddleware mw);
    use SRequestLogger (requestLogger mw);
    use SSecurityLogger (securityLogger mw);
    use SCors (cors (cors_options env));
    use SJson (express_json (bytes_mb 10) true);
    use SUrlencoded (express_urlencoded true (bytes_mb 10));
    get_root SHealth (health env);
    use_router SAuth "/api/auth" auth;
    use_router SClients "/api/clients" clients;
    use_error SErrorHandler (errorHandler env);
    use SNotFound notFoundHandler ].

(** The layers ahead of the routes: request-ID assignment, access logging
    (two layers), security logging, CORS, body parsing (two layers). *)
Definition pipeline : list Stage :=
  [SAddRequestId; SMorgan; SRequestLogger; SSecurityLogger; SCors; SJson;
   SUrlencoded].

(** Serving one request: the layers that ran, and the response. *)
Definition serve (env : Env) (mw : RequestLogger) (auth clients : Router)
    (m : Message) : list Stage * Response :=
  let '(t, c) := dispatch (app env mw auth clients) None (start m) in
  (t, res c).

(** A request matches a registered route when the health route or a route
    of one of the two routers takes it. *)
Definition matches_route (auth clients : Router) (m : Message) : bool :=
  matches (get_root SHealth Next) (req (start m))
  || matches (use_router SAuth "/api/auth" auth) (req (start m))
  || matches (use_router SClients "/api/clients" clients) (req (start m)).



(** The body parsers let the request through. *)
Definition body_accepted (m : Message) : bool :=
  match read_json (bytes_mb 10) true m with
  | Failed _ => false
  | Parsed _ => true
  | Skip =>
      match read_form (bytes_mb 10) m with
      | Failed _ => false
      | _ => true
      end
  end.

(** *** Sample environments, routers and requests *)

Definition development_env : Env :=
  {| process_env_NODE_ENV := None; now_ISO := "2025-01-01T00:00:00.000Z";
     readyState := 1; uptime := (5 # 2)%Q |}.

Definition production_env : Env :=
  {| process_env_NODE_ENV := Some "production";
     now_ISO := "2025-01-01T00:00:00.000Z"; readyState := 1; uptime := (5 # 2)%Q |}.

(** An auth router with the one route [POST /login], which refuses. *)
Definition login_router : Router :=
  {| has_route := fun m p => is_POST m && String.eqb p "/login";
     route := status_json (VNum 401)
                (VObj [("success", VBool false);
                       ("message", VStr "Invalid credentials")]) |}.

Definition bare (m : Method) (p : string) : Message :=
  {| method := m; path := p; query := ""; ip := "127.0.0.1"; origin := None;
     content_type := None; payload := None |}.

(** A body of 11 MB. *)
Definition eleven_mb : Payload :=
  {| payload_length := 11 * 1024 * 1024; payload_json := Some (VObj []);
     payload_form := Some (VObj []) |}.

Definition post (p : string) (ct : MediaType) (pl : Payload) : Message :=
  {| method := POST; path := p; query := ""; ip := "127.0.0.1";
     origin := None; content_type := Some ct; payload := Some pl |}.

Definition sample_body : Value :=
  VObj [("email", VStr "a@x.com"); ("password", VStr "wrong")].

Definition boom : Exn :=
  mkExn [("message", VStr "database unavailable"); ("stack", VStr "Error: ...")].

(** *** What the routes receive *)

(** [req.body] after the two body parsers, for a request that they
    accept. *)
Definition parsed_body (m : Message) : Value :=
  match read_json (bytes_mb 10) true m with
  | Parsed v => v
  | _ =>
      match read_form (bytes_mb 10) m with
      | Parsed v => v
      | _ => VObj []
      end
  end.

(** The value of a response header, if it is set. *)
Definition header (r : Response) (k : string) : option string :=
  snd <$> List.find (fun kv => String.eqb k kv.1) (headers r).

(** The origin of the request is on the allow-list. *)
Definition origin_allowed (o : CorsOptions) (m : Message) : bool :=
  match origin m with
  | Some og => existsb (String.eqb og) (cors_origin o)
  | None => false
  end.

Definition from (m : Method) (p : string) (og : string) : Message :=
  {| method := m; path := p; query := ""; ip := "127.0.0.1";
     origin := Some og; content_type := None; payload := None |}.




(** *** The database connection *)

(** What [connectWithRetry] does to the outside. *)
Inductive DbEvent : Type :=
| LogConnectionAttempt                (* logDatabase.connectionAttempt() *)
| MongooseConnect (uri : option string)
| LogConnectionSuccess                (* logDatabase.connectionSuccess() *)
| LoggerInfo (msg : string)
| LogConnectionError (err : Exn)      (* logDatabase.connectionError(err) *)
| LoggerError (msg : string)
| SetTimeout (ms : Z).                (* setTimeout(connectWithRetry, ms) *)

(** MongoDB connection with retry logic.  [attempts] tells how the
    successive calls of [mongoose.connect] complete, as far as they are
    observed: None for a connection, an error for a rejection; when the
    list runs out the call at hand is still pending. *)
Fixpoint connectWithRetry (uri : option string) (attempts : list (option Exn))
    : list DbEvent :=
  match attempts with
  | [] => [LogConnectionAttempt; MongooseConnect uri]
  | None :: _ =>
      [LogConnectionAttempt; MongooseConnect uri; LogConnectionSuccess;
       LoggerInfo "✅ MongoDB connected successfully"]
  | Some err :: rest =>
      [LogConnectionAttempt; MongooseConnect uri; LogConnectionError err;
       LoggerError "❌ MongoDB connection failed. Retrying in 5 seconds...";
       SetTimeout 5000]
      ++ connectWithRetry uri rest
  end.

(** The calls of [mongoose.connect] and the delays of the timers in a run. *)
Definition connects (t : list DbEvent) : nat :=
  length (List.filter (fun e => match e with
                                | MongooseConnect _ => true
                                | _ => false
                                end) t).

Definition timers (t : list DbEvent) : list Z :=
  omap (fun e => match e with
                 | SetTimeout ms => Some ms
                 | _ => None
                 end) t.

End Server.

(** ** frontend/src/App.jsx *)

Module App.

(** The page components that the routes render. *)
Inductive Component : Type :=
| Home | Login | Signup | ClientOnboardingForm
| Dashboard | AdvisorProfile | ClientsPage | ClientDetailView.

(** A segment of a route path: fixed text, or a [:name] parameter. *)
Inductive Segment : Type :=
| Static (s : string)
| Param (name : string).

(** A [<Route>] of the table: a page at a path, the pathless layout route
    (a [ProtectedRoute] around the [DashboardLayout]) with the pages below
    it, or the catch-all that navigates elsewhere. *)
Inductive RouteDef : Type :=
| Route (path : list Segment) (element : Component)
| Layout (children : list (list Segment * Component))
| CatchAll (to : list string) (replace : bool).

(** What a location comes to: a page on its own, a page in the outlet of
    the protected layout, or a redirect. *)
Inductive Element : Type :=
| Public (c : Component) (params : list (string * string))
| Protected (c : Component) (params : list (string * string))
| Navigate (to : list string) (replace : bool).

(** The [<Routes>] of [App], in the order of the file.  A location is
    given by the segments of its pathname, as the browser has it: the
    pathname is a slash and then the segments, joined by slashes.  [/] is
    the empty list, [/clients/] is [clients] and an empty segment. *)
Definition routes : list RouteDef :=
  [ Route [] Home;
    Route [Static "login"] Login;
    Route [Static "signup"] Signup;
    Route [Static "client-onboarding"; Param "token"] ClientOnboardingForm;
    Layout [ ([Static "dashboard"], Dashboard);
             ([Static "profile"], AdvisorProfile);
             ([Static "clients"], ClientsPage);
             ([Static "clients"; Param "clientId"], ClientDetailView) ];
    CatchAll [] true ].

(** *** Percent-escapes

    A string stands for its UTF-8 bytes. *)

Definition hex_digit (a : Ascii.ascii) : option N :=
  let n := Ascii.N_of_ascii a in
  if (48 <=? n)%N && (n <=? 57)%N then Some (n - 48)%N
  else if (65 <=? n)%N && (n <=? 70)%N then Some (n - 55)%N
  else if (97 <=? n)%N && (n <=? 102)%N then Some (n - 87)%N
  else None.

(** For the first byte of a character of more than one byte: how many
    bytes follow, and the range of the next one. *)
Definition utf8_tail (b : N) : option (nat * N * N) :=
  if (b <? 194)%N then None
  else if (b <=? 223)%N then Some (1%nat, 128%N, 191%N)
  else if (b =? 224)%N then Some (2%nat, 160%N, 191%N)
  else if (b =? 237)%N then Some (2%nat, 128%N, 159%N)
  else if (b <=? 239)%N then Some (2%nat, 128%N, 191%N)
  else if (b =? 240)%N then Some (3%nat, 144%N, 191%N)
  else if (b <=? 243)%N then Some (3%nat, 128%N, 191%N)
  else if (b =? 244)%N then Some (3%nat, 128%N, 143%N)
  else None.

(** [decodeURIComponent]: every escape [%XY] becomes the byte it names.
    None stands for the URIError of a [%] that two hexadecimal digits do
    not follow, and of escapes that are not the UTF-8 encoding of a
    character.  [need] counts the bytes that the character at hand still
    lacks; the next of them is to lie between [lo] and [hi]. *)
Fixpoint decode (need : nat) (lo hi : N) (s : string) : option string :=
  match s with
  | EmptyString => match need with O => Some EmptyString | S _ => None end
  | String a rest =>
      if Ascii.eqb a "%"%char then
        match rest with
        | String h (String l rest') =>
            match hex_digit h, hex_digit l with
            | Some x, Some y =>
                let b := (16 * x + y)%N in
                match need with
                | O =>
                    if (b <? 128)%N
                    then String (Ascii.ascii_of_N b) <$> decode 0 0 0 rest'
                    else match utf8_tail b with
                         | Some (n, lo', hi') =>
                             String (Ascii.ascii_of_N b) <$> decode n lo' hi' rest'
                         | None => None
                         end
                | S n =>
                    if (lo <=? b)%N && (b <=? hi)%N
                    then String (Ascii.ascii_of_N b) <$> decode n 128 191 rest'
                    else None
                end
            | _, _ => None
            end
        | _ => None
        end
      else
        match need with
        | O => String a <$> decode 0 0 0 rest
        | S _ => None
        end
  end.

Definition decodeURIComponent (s : string) : option string := decode 0 0 0 s.

(** [v.replace(/\//g, '%2F')] and [v.replace(/%2F/g, '/')]. *)
Fixpoint escape_slashes (s : string) : string :=
  match s with
  | EmptyString => EmptyString
  | String a rest =>
      if Ascii.eqb a "/"%char then String "%"%char (String "2"%char (String "F"%char (escape_slashes rest)))
      else String a (escape_slashes rest)
  end.

Fixpoint restore_slashes (s : string) : string :=
  match s with
  | EmptyString => EmptyString
  | String a rest =>
      match rest with
      | String b (String c rest') =>
          if Ascii.eqb a "%"%char && Ascii.eqb b "2"%char && Ascii.eqb c "F"%char
          then String "/"%char (restore_slashes rest')
          else String a (restore_slashes rest)
      | _ => String a (restore_slashes rest)
      end
  end.

(** The router's [decodePath] (react-router 6.22 and later): the location
    is matched with its segments decoded, the slashes that this brings up
    escaped again; a location with a segment that cannot be decoded is
    matched as it is. *)
Fixpoint decode_segments (loc : list string) : option (list string) :=
  match loc with
  | [] => Some []
  | v :: rest =>
      match decodeURIComponent v, decode_segments rest with
      | Some d, Some ds => Some (escape_slashes d :: ds)
      | _, _ => None
      end
  end.

Definition decodePath (loc : list string) : list string :=
  match decode_segments loc with
  | Some l => l
  | None => loc
  end.

(** A segment without [%] and [/]. *)
Fixpoint plain (s : string) : bool :=
  match s with
  | EmptyString => true
  | String a rest => negb (Ascii.eqb a "%"%char) && negb (Ascii.eqb a "/"%char) && plain rest
  end.

(** *** Matching *)

(** Matching a path against a decoded location, as the router does by
    default: segment by segment to the end, slashes at the end of the
    location ignored, fixed text without regard to case, a parameter taking
    one non-empty segment, with its escaped slashes restored. *)
Fixpoint match_path (pat : list Segment) (loc : list string)
    : option (list (string * string)) :=
  match pat, loc with
  | [], rest => if forallb (String.eqb "") rest then Some [] else None
  | Static s :: pat', x :: loc' =>
      if String.eqb (Server.lower s) (Server.lower x)
      then match_path pat' loc'
      else None
  | Param n :: pat', x :: loc' =>
      if String.eqb x "" then None
      else cons (n, restore_slashes x) <$> match_path pat' loc'
  | _, _ => None
  end.

(** The first child of the layout that matches. *)
Fixpoint match_children (children : list (list Segment * Component))
    (loc : list string) : option Element :=
  match children with
  | [] => None
  | (p, c) :: rest =>
      match match_path p loc with
      | Some ps => Some (Protected c ps)
      | None => match_children rest loc
      end
  end.

Definition match_route (r : RouteDef) (loc : list string) : option Element :=
  match r with
  | Route p c => Public c <$> match_path p loc
  | Layout children => match_children children loc
  | CatchAll to replace => Some (Navigate to replace)
  end.

(** The element of the first route that matches the decoded location;
    None when none does. *)
Fixpoint resolve_in (rs : list RouteDef) (loc : list string) : option Element :=
  match rs with
  | [] => None
  | r :: rest =>
      match match_route r loc with
      | Some e => Some e
      | None => resolve_in rest loc
      end
  end.

Definition resolve (loc : list string) : option Element :=
  resolve_in routes (decodePath loc).


(** Every path of the table that is not the catch-all, with its page. *)
Definition page_paths : list (list Segment * Component) :=
  flat_map (fun r => match r with
                     | Route p c => [(p, c)]
                     | Layout children => children
                     | CatchAll _ _ => []
                     end) routes.

(** The paths of the table that a location matches. *)
Definition matching (loc : list string) : list (list Segment * Component) :=
  List.filter (fun pc => match match_path pc.1 (decodePath loc) with
                         | Some _ => true
                         | None => false
                         end) page_paths.

Definition is_dashboard_page (c : Component) : bool :=
  match c with
  | Dashboard | AdvisorProfile | ClientsPage | ClientDetailView => true
  | _ => false
  end.

End App.

(** ** Properties of the auth provider *)

Module AuthContextFacts.

Import AuthContext.

(** Unfolding an operation down to the world transformer it is. *)
Ltac run :=
  unfold checkAuthStatus, login, register, logout, try_catch_finally, await,
    prop, throw, localStorage_getItem, localStorage_setItem,
    localStorage_removeItem, toast_success, toast_error, console_error,
    setUser, setLoading, setIsAuthenticated, emit, modify, set_storage,
    mbind, M_bind, mret, M_ret; simpl.

Lemma nullish_field v k : nullish v = true → field v k = VUndef.
Proof. by destruct v. Qed.

Lemma truthy_js_or_default a s :
  s ≠ "" → truthy (js_or a (VStr s)) = true.
Proof.
  intros Hs. unfold js_or. destruct (truthy a) eqn:Ha; [done|].
  simpl. by destruct (String.eqb_spec s "").
Qed.

(** *** [checkAuthStatus], case by case *)

(** Without a truthy token and a truthy stored user, only [loading] changes. *)
Lemma checkAuthStatus_skip api w :
  truthy (js_and (stored (storage w) "token") (stored (storage w) "user")) = false →
  checkAuthStatus api w =
    (Ok tt, {| storage := storage w; user := user w; loading := false;
               isAuthenticated := isAuthenticated w; events := events w |}).
Proof. unfold stored. run. by intros ->. Qed.

(** With both, the profile is fetched and decides. *)
Lemma checkAuthStatus_fetch api w :
  truthy (js_and (stored (storage w) "token") (stored (storage w) "user")) = true →
  checkAuthStatus api w =
    let '(r, st') := authAPI_getProfile api (storage w) in
    (Ok tt,
     if call_failed r
     then {| storage := delete "user" (delete "token" st'); user := user w;
             loading := false; isAuthenticated := isAuthenticated w;
             events := events w ++ [ApiCall GetProfile r] |}
     else {| storage := st';
             user := match r with
                     | Ok response => field response "advisor"
                     | Throw _ => VUndef
                     end;
             loading := false; isAuthenticated := true;
             events := events w ++ [ApiCall GetProfile r] |}).
Proof.
  unfold stored. run. intros ->.
  destruct (authAPI_getProfile api (storage w)) as [[response|e] st'];
    simpl; [|reflexivity].
  destruct (nullish response) eqn:Hn; simpl.
  - by rewrite (nullish_field _ _ Hn).
  - by destruct (truthy (field response "success")).
Qed.

Lemma stored_truthy st k : truthy (stored st k) = true → is_Some (st !! k).
Proof. unfold stored. destruct (st !! k); [eauto | discriminate]. Qed.

Lemma stored_both st :
  truthy (js_and (stored st "token") (stored st "user")) = true →
  is_Some (st !! "token") ∧ is_Some (st !! "user").
Proof.
  unfold js_and. destruct (truthy (stored st "token")) eqn:Ht.
  - intros Hu. split; by apply stored_truthy.
  - by rewrite Ht.
Qed.

(** *** The operations on the sample worlds *)

Example login_success_persists :
  let out := login accepting_api sample_ToString sample_stringify
               sample_credentials (initial ∅) in
  out.1 = Ok (VObj [("success", VBool true); ("user", sample_advisor)])
  ∧ storage out.2 !! "token" = Some "jwt"
  ∧ storage out.2 !! "user" = Some "advisor a1"
  ∧ user out.2 = sample_advisor
  ∧ isAuthenticated out.2 = true
  ∧ loading out.2 = false.
Proof. vm_compute. repeat split. Qed.

Example register_unreachable_reports :
  let out := register unreachable_api sample_ToString sample_stringify
               sample_credentials (initial ∅) in
  out.1 = Ok (VObj [("success", VBool false); ("message", VStr "Network Error")])
  ∧ storage out.2 !! "token" = None
  ∧ last (events out.2) = Some (ToastError (VStr "Network Error")).
Proof. vm_compute. repeat split. Qed.

Example recheck_refused_purges :
  let out := checkAuthStatus refusing_api (initial signed_in_storage) in
  storage out.2 !! "token" = None
  ∧ storage out.2 !! "user" = None
  ∧ isAuthenticated out.2 = false
  ∧ loading out.2 = false.
Proof. vm_compute. repeat split. Qed.

(** *** [logout] *)

(** C1, as stated, fails: [logout] removes neither key.  Signed in, with a
    server that confirms the logout or with one that cannot be reached, the
    token and the stored advisor are still in the browser storage when
    [logout] has resolved. *)
Lemma logout_keeps_token_and_user :
  storage (logout accepting_api signed_in).2 !! "token" = Some "jwt"
  ∧ storage (logout accepting_api signed_in).2 !! "user" = Some "advisor a1"
  ∧ storage (logout unreachable_api signed_in).2 !! "token" = Some "jwt"
  ∧ storage (logout unreachable_api signed_in).2 !! "user" = Some "advisor a1".
Proof. vm_compute. repeat split. Qed.

(** C1, amended: whether the server call resolves or rejects, [logout]
    clears the in-memory auth state ([user] null, [isAuthenticated] false,
    [loading] false); it writes nothing to the browser storage itself, which
    is left exactly as the API call left it. *)
Theorem logout_clears_state_not_storage api w :
  let w' := (logout api w).2 in
  user w' = VNull
  ∧ isAuthenticated w' = false
  ∧ loading w' = false
  ∧ storage w' = (authAPI_logout api (storage w)).2.
Proof.
  run. by destruct (authAPI_logout api (storage w)) as [[v|e] st'].
Qed.

(** C9: [logout] never rejects and always resolves with [{success: true}],
    both when the server call resolves and when it throws. *)
Theorem logout_always_resolves_true api w :
  (logout api w).1 = Ok (VObj [("success", VBool true)]).
Proof.
  run. by destruct (authAPI_logout api (storage w)) as [[v|e] st'].
Qed.

(** *** The initial auth check *)

(** C2: run from the provider's initial state, [checkAuthStatus]
    - ends authenticated, with the fetched advisor as [user], when a token
      is persisted and the profile fetch succeeds;
    - ends unauthenticated when no token is persisted or the profile fetch
      fails;
    - has removed both persisted keys when the profile fetch failed. *)
Theorem checkAuthStatus_transitions api st :
  let w' := (checkAuthStatus api (initial st)).2 in
  (∀ response,
     is_Some (st !! "token") →
     ApiCall GetProfile (Ok response) ∈ events w' →
     truthy (field response "success") = true →
     isAuthenticated w' = true ∧ user w' = field response "advisor")
  ∧ ((st !! "token" = None
      ∨ ∃ r, ApiCall GetProfile r ∈ events w' ∧ call_failed r = true) →
     isAuthenticated w' = false ∧ user w' = VNull)
  ∧ (∀ r,
       ApiCall GetProfile r ∈ events w' → call_failed r = true →
       storage w' !! "token" = None ∧ storage w' !! "user" = None).
Proof.
  cbn zeta.
  destruct (truthy (js_and (stored st "token") (stored st "user"))) eqn:Hboth.
  - rewrite checkAuthStatus_fetch by exact Hboth. simpl.
    destruct (authAPI_getProfile api st) as [r st']. simpl.
    destruct (stored_both _ Hboth) as [[t Ht] _].
    destruct (call_failed r) eqn:Hr; simpl.
    + split; [|split].
      * intros response _ Hin Hs. apply list_elem_of_singleton in Hin.
        inversion Hin; subst r. simpl in Hr. by rewrite Hs in Hr.
      * done.
      * intros _ _ _. split.
        -- by rewrite lookup_delete_ne, lookup_delete_eq.
        -- by rewrite lookup_delete_eq.
    + split; [|split].
      * intros response _ Hin _. apply list_elem_of_singleton in Hin.
        by inversion Hin; subst r.
      * intros [Hnone | (r' & Hin & Hr')]; [congruence|].
        apply list_elem_of_singleton in Hin. inversion Hin; congruence.
      * intros r' Hin Hr'. apply list_elem_of_singleton in Hin.
        inversion Hin; congruence.
  - rewrite checkAuthStatus_skip by exact Hboth. simpl.
    split; [|split].
    + intros response _ Hin. by apply elem_of_nil in Hin.
    + done.
    + intros r Hin. by apply elem_of_nil in Hin.
Qed.

Lemma checkAuthStatus_transitions_witness :
  (isAuthenticated (checkAuthStatus accepting_api (initial signed_in_storage)).2 = true
   ∧ user (checkAuthStatus accepting_api (initial signed_in_storage)).2 = sample_advisor)
  ∧ (isAuthenticated (checkAuthStatus refusing_api (initial signed_in_storage)).2 = false
     ∧ user (checkAuthStatus refusing_api (initial signed_in_storage)).2 = VNull)
  ∧ (storage (checkAuthStatus unreachable_api (initial signed_in_storage)).2 !! "token" = None
     ∧ storage (checkAuthStatus unreachable_api (initial signed_in_storage)).2 !! "user" = None).
Proof.
  split; [|split].
  - apply (proj1 (checkAuthStatus_transitions accepting_api signed_in_storage)
             (VObj [("success", VBool true); ("advisor", sample_advisor)])).
    + vm_compute. eexists. reflexivity.
    + vm_compute. left.
    + reflexivity.
  - apply (proj1 (proj2 (checkAuthStatus_transitions refusing_api signed_in_storage))).
    right. eexists. split; [vm_compute; left | reflexivity].
  - apply (proj2 (proj2 (checkAuthStatus_transitions unreachable_api signed_in_storage))
             (Throw (VObj [("message", VStr "Network Error")]))).
    + vm_compute. left.
    + reflexivity.
Defined.

(** C10: the initial auth check calls the server only when both storage
    keys, [token] and [user], are present; with exactly one of them present
    it makes no call, leaves the storage as it is, and ends unauthenticated
    with [loading] false. *)
Theorem checkAuthStatus_fetch_needs_both_keys api st :
  let w' := (checkAuthStatus api (initial st)).2 in
  ((∃ ep r, ApiCall ep r ∈ events w') →
     is_Some (st !! "token") ∧ is_Some (st !! "user"))
  ∧ ((is_Some (st !! "token") ∧ st !! "user" = None)
     ∨ (st !! "token" = None ∧ is_Some (st !! "user")) →
     events w' = []
     ∧ storage w' = st
     ∧ isAuthenticated w' = false
     ∧ user w' = VNull
     ∧ loading w' = false).
Proof.
  cbn zeta.
  destruct (truthy (js_and (stored st "token") (stored st "user"))) eqn:Hboth.
  - destruct (stored_both _ Hboth) as [[t Ht] [u Hu]]. split; [eauto|].
    intros [[_ Hnone] | [Hnone _]]; congruence.
  - rewrite checkAuthStatus_skip by exact Hboth. simpl. split; [|done].
    intros (ep & r & Hin). by apply elem_of_nil in Hin.
Qed.

Lemma checkAuthStatus_fetch_needs_both_keys_witness :
  events (checkAuthStatus accepting_api (initial token_only_storage)).2 = []
  ∧ storage (checkAuthStatus accepting_api (initial token_only_storage)).2
    = token_only_storage
  ∧ isAuthenticated (checkAuthStatus accepting_api (initial token_only_storage)).2 = false
  ∧ user (checkAuthStatus accepting_api (initial token_only_storage)).2 = VNull
  ∧ loading (checkAuthStatus accepting_api (initial token_only_storage)).2 = false.
Proof.
  apply (proj2 (checkAuthStatus_fetch_needs_both_keys accepting_api token_only_storage)).
  left. split; [vm_compute; eexists; reflexivity | reflexivity].
Defined.

(** *** Failed [login] and [register] *)

(** C6, as stated, fails when the call is rejected with null or undefined:
    the catch block then fails itself, reading [error.message], and the
    operation rejects with that TypeError instead of resolving.  Nothing is
    stored and no toast is shown; [loading] still ends false. *)
Lemma sign_in_rejects_on_empty_rejection :
  let out := login silent_api sample_ToString sample_stringify
               sample_credentials (initial ∅) in
  let out' := register silent_api sample_ToString sample_stringify
                sample_credentials (initial ∅) in
  out.1 = Throw (error_object (TypeError VUndef "message"))
  ∧ out'.1 = Throw (error_object (TypeError VUndef "message"))
  ∧ events out.2 = [ApiCall (Login sample_credentials) (Throw VUndef);
                    ConsoleError "Login error:" VUndef]
  ∧ storage out.2 = ∅
  ∧ loading out.2 = false.
Proof. vm_compute. repeat split. Qed.

(** C6, amended: when the API call of [login] or [register] fails (the
    server answers without a truthy [success], or the call throws a value
    other than null or undefined), the operation resolves, with
    [{success: false, message}]; it shows an error toast; and it stores
    nothing: the browser storage is as the API call left it, and the auth
    state is unchanged. *)
Theorem failed_sign_in_resolves_false api ToString JSON_stringify op arg w :
  call_failed (api_op api op arg (storage w)).1 = true →
  rejected_with_nothing (api_op api op arg (storage w)).1 = false →
  let out := run_op api ToString JSON_stringify op arg w in
  (∃ message,
     out.1 = Ok (VObj [("success", VBool false); ("message", message)]))
  ∧ (∃ mid notice,
       events out.2 = (events w ++ mid ++ [ToastError notice])%list
       ∧ truthy notice = true)
  ∧ storage out.2 = (api_op api op arg (storage w)).2
  ∧ user out.2 = user w
  ∧ isAuthenticated out.2 = isAuthenticated w.
Proof.
  destruct op; simpl; run.
  - destruct (authAPI_login api arg (storage w)) as [[response|e] st']; simpl.
    + destruct (nullish response) eqn:Hn; simpl.
      * intros _ _. split; [eauto|]. split; [|done].
        eexists [_; _], _. by rewrite <- !app_assoc.
      * intros Hf _. apply negb_true_iff in Hf. rewrite Hf. simpl.
        split; [eauto|]. split; [|done].
        eexists [_], _. rewrite <- !app_assoc. split; [done|].
        by apply truthy_js_or_default.
    + intros _ ->. simpl. split; [eauto|]. split; [|done].
      eexists [_; _], _. rewrite <- !app_assoc. split; [done|].
      by apply truthy_js_or_default.
  - destruct (authAPI_register api arg (storage w)) as [[response|e] st']; simpl.
    + destruct (nullish response) eqn:Hn; simpl.
      * intros _ _. split; [eauto|]. split; [|done].
        eexists [_; _], _. by rewrite <- !app_assoc.
      * intros Hf _. apply negb_true_iff in Hf. rewrite Hf. simpl.
        split; [eauto|]. split; [|done].
        eexists [_], _. rewrite <- !app_assoc. split; [done|].
        by apply truthy_js_or_default.
    + intros _ ->. simpl. split; [eauto|]. split; [|done].
      eexists [_; _], _. rewrite <- !app_assoc. split; [done|].
      by apply truthy_js_or_default.
Qed.

Lemma failed_sign_in_resolves_false_witness :
  let out := run_op unreachable_api sample_ToString sample_stringify OpLogin
               sample_credentials (initial ∅) in
  (∃ message,
     out.1 = Ok (VObj [("success", VBool false); ("message", message)]))
  ∧ (∃ mid notice,
       events out.2 = (events (initial ∅) ++ mid ++ [ToastError notice])%list
       ∧ truthy notice = true)
  ∧ storage out.2 = (api_op unreachable_api OpLogin sample_credentials
                       (storage (initial ∅))).2
  ∧ user out.2 = user (initial ∅)
  ∧ isAuthenticated out.2 = isAuthenticated (initial ∅).
Proof.
  apply (failed_sign_in_resolves_false unreachable_api sample_ToString
           sample_stringify OpLogin sample_credentials (initial ∅));
    reflexivity.
Defined.

(** *** Sign-in, in full *)

(** What [login] and [register] come to, by the way their API call
    completes. *)
Lemma run_op_failed api ToString JSON_stringify op arg w :
  call_failed (api_op api op arg (storage w)).1 = true →
  rejected_with_nothing (api_op api op arg (storage w)).1 = false →
  ∃ message mid,
    run_op api ToString JSON_stringify op arg w
    = (Ok (VObj [("success", VBool false); ("message", message)]),
       {| storage := (api_op api op arg (storage w)).2; user := user w;
          loading := false; isAuthenticated := isAuthenticated w;
          events := events w
                    ++ ApiCall (endpoint_of op arg) (api_op api op arg (storage w)).1
                       :: mid |}).
Proof.
  destruct op; simpl; run.
  - destruct (authAPI_login api arg (storage w)) as [[response|e] st']; simpl.
    + destruct (nullish response) eqn:Hn; simpl.
      * intros _ _. eexists _, [_; _]. by rewrite <- !app_assoc.
      * intros Hf _. apply negb_true_iff in Hf. rewrite Hf. simpl.
        eexists _, [_]. by rewrite <- !app_assoc.
    + intros _ ->. simpl. eexists _, [_; _]. by rewrite <- !app_assoc.
  - destruct (authAPI_register api arg (storage w)) as [[response|e] st']; simpl.
    + destruct (nullish response) eqn:Hn; simpl.
      * intros _ _. eexists _, [_; _]. by rewrite <- !app_assoc.
      * intros Hf _. apply negb_true_iff in Hf. rewrite Hf. simpl.
        eexists _, [_]. by rewrite <- !app_assoc.
    + intros _ ->. simpl. eexists _, [_; _]. by rewrite <- !app_assoc.
Qed.

(** A call rejected with null or undefined: the catch block fails on
    [error.message], after the console line and before the toast. *)
Lemma run_op_rejected_with_nothing api ToString JSON_stringify op arg w :
  rejected_with_nothing (api_op api op arg (storage w)).1 = true →
  ∃ e, (api_op api op arg (storage w)).1 = Throw e
    ∧ run_op api ToString JSON_stringify op arg w
      = (Throw (error_object (TypeError e "message")),
         {| storage := (api_op api op arg (storage w)).2; user := user w;
            loading := false; isAuthenticated := isAuthenticated w;
            events := events w
                      ++ [ApiCall (endpoint_of op arg) (Throw e);
                          ConsoleError (match op with
                                        | OpLogin => "Login error:"
                                        | OpRegister => "Registration error:"
                                        end) e] |}).
Proof.
  destruct op; simpl; run.
  - destruct (authAPI_login api arg (storage w)) as [[response|e] st'];
      simpl; [done|].
    intros He. exists e. rewrite He. simpl. by rewrite <- !app_assoc.
  - destruct (authAPI_register api arg (storage w)) as [[response|e] st'];
      simpl; [done|].
    intros He. exists e. rewrite He. simpl. by rewrite <- !app_assoc.
Qed.

Lemma run_op_succeeded api ToString JSON_stringify op arg w :
  call_failed (api_op api op arg (storage w)).1 = false →
  ∃ response,
    (api_op api op arg (storage w)).1 = Ok response
    ∧ run_op api ToString JSON_stringify op arg w
      = (Ok (VObj [("success", VBool true); ("user", field response "advisor")]),
         {| storage :=
              <["user" := ToString (JSON_stringify (field response "advisor"))]>
                (<["token" := ToString (field response "token")]>
                   (api_op api op arg (storage w)).2);
            user := field response "advisor";
            loading := false; isAuthenticated := true;
            events := events w
                      ++ [ApiCall (endpoint_of op arg) (Ok response);
                          ToastSuccess (VStr (success_text op))] |}).
Proof.
  destruct op; simpl; run.
  - destruct (authAPI_login api arg (storage w)) as [[response|e] st'];
      simpl; [|done].
    intros Hf. apply negb_false_iff in Hf. exists response. split; [done|].
    destruct (nullish response) eqn:Hn;
      [by rewrite (nullish_field _ _ Hn) in Hf|].
    simpl. rewrite Hf. simpl. by rewrite <- !app_assoc.
  - destruct (authAPI_register api arg (storage w)) as [[response|e] st'];
      simpl; [|done].
    intros Hf. apply negb_false_iff in Hf. exists response. split; [done|].
    destruct (nullish response) eqn:Hn;
      [by rewrite (nullish_field _ _ Hn) in Hf|].
    simpl. rewrite Hf. simpl. by rewrite <- !app_assoc.
Qed.

Lemma stored_nonempty st k :
  truthy (stored st k) = true ↔ ∃ s, st !! k = Some s ∧ s ≠ "".
Proof.
  unfold stored. destruct (st !! k) as [s|]; simpl.
  - destruct (String.eqb_spec s ""); simpl; split.
    + done.
    + intros (s' & Hs & Hne). by inversion Hs; subst.
    + eauto.
    + done.
  - split; [done | by intros (s & Hs & _)].
Qed.

Lemma stored_both_nonempty st :
  truthy (js_and (stored st "token") (stored st "user")) = true
  ↔ ∃ t u, st !! "token" = Some t ∧ t ≠ "" ∧ st !! "user" = Some u ∧ u ≠ "".
Proof.
  unfold js_and. destruct (truthy (stored st "token")) eqn:Ht.
  - apply stored_nonempty in Ht as (t & Ht & Hne). rewrite stored_nonempty.
    split.
    + intros (u & Hu & Hune). eauto 10.
    + intros (t' & u & _ & _ & Hu & Hune). eauto.
  - rewrite Ht. split; [done|].
    intros (t & u & Htok & Hne & _).
    assert (truthy (stored st "token") = true) by (apply stored_nonempty; eauto).
    congruence.
Qed.

(** X1: when the API call of [login] or [register] succeeds, the operation
    resolves with [{success: true, user}], stores the token and the
    serialized advisor under the two keys, makes the advisor the current
    user, and shows one success toast and no error toast. *)
Theorem successful_sign_in_persists api ToString JSON_stringify op arg w :
  call_failed (api_op api op arg (storage w)).1 = false →
  let out := run_op api ToString JSON_stringify op arg w in
  ∃ response,
    (api_op api op arg (storage w)).1 = Ok response
    ∧ out.1 = Ok (VObj [("success", VBool true);
                        ("user", field response "advisor")])
    ∧ storage out.2 !! "token" = Some (ToString (field response "token"))
    ∧ storage out.2 !! "user"
      = Some (ToString (JSON_stringify (field response "advisor")))
    ∧ user out.2 = field response "advisor"
    ∧ isAuthenticated out.2 = true
    ∧ events out.2
      = (events w ++ [ApiCall (endpoint_of op arg) (Ok response);
                      ToastSuccess (VStr (success_text op))])%list.
Proof.
  intros Hok. cbn zeta.
  destruct (run_op_succeeded api ToString JSON_stringify op arg w Hok)
    as (response & Hr & ->).
  exists response. simpl. split; [done|]. split; [done|].
  split; [by rewrite lookup_insert_ne, lookup_insert_eq|].
  split; [by rewrite lookup_insert_eq|]. done.
Qed.

Lemma successful_sign_in_persists_witness :
  let out := run_op accepting_api sample_ToString sample_stringify OpRegister
               sample_credentials (initial ∅) in
  ∃ response,
    (api_op accepting_api OpRegister sample_credentials (storage (initial ∅))).1
    = Ok response
    ∧ out.1 = Ok (VObj [("success", VBool true);
                        ("user", field response "advisor")])
    ∧ storage out.2 !! "token"
      = Some (sample_ToString (field response "token"))
    ∧ storage out.2 !! "user"
      = Some (sample_ToString (sample_stringify (field response "advisor")))
    ∧ user out.2 = field response "advisor"
    ∧ isAuthenticated out.2 = true
    ∧ events out.2
      = (events (initial ∅)
         ++ [ApiCall (endpoint_of OpRegister sample_credentials) (Ok response);
             ToastSuccess (VStr (success_text OpRegister))])%list.
Proof.
  apply (successful_sign_in_persists accepting_api sample_ToString
           sample_stringify OpRegister sample_credentials (initial ∅)).
  reflexivity.
Defined.

(** X2: once its API call has settled, [checkAuthStatus] never rejects,
    and [checkAuthStatus], [login] and [register] all leave [loading] false.
    [login] and [register] resolve, with a [success] flag that tells whether
    the API call succeeded, unless the call was rejected with null or
    undefined: then they reject, with the TypeError of reading
    [error.message]. *)
Theorem operations_always_settle api ToString JSON_stringify op arg w :
  let r := (api_op api op arg (storage w)).1 in
  let out := run_op api ToString JSON_stringify op arg w in
  (checkAuthStatus api w).1 = Ok tt
  ∧ loading (checkAuthStatus api w).2 = false
  ∧ (if rejected_with_nothing r
     then ∃ e, out.1 = Throw e ∧ field e "name" = VStr "TypeError"
     else ∃ v, out.1 = Ok v
               ∧ field v "success" = VBool (negb (call_failed r)))
  ∧ loading out.2 = false.
Proof.
  cbn zeta. split; [|split].
  - destruct (truthy (js_and (stored (storage w) "token")
                             (stored (storage w) "user"))) eqn:Hboth.
    + rewrite checkAuthStatus_fetch by exact Hboth.
      by destruct (authAPI_getProfile api (storage w)).
    + by rewrite checkAuthStatus_skip.
  - destruct (truthy (js_and (stored (storage w) "token")
                             (stored (storage w) "user"))) eqn:Hboth.
    + rewrite checkAuthStatus_fetch by exact Hboth.
      destruct (authAPI_getProfile api (storage w)) as [r st'].
      by destruct (call_failed r).
    + by rewrite checkAuthStatus_skip.
  - destruct (rejected_with_nothing (api_op api op arg (storage w)).1) eqn:Hn.
    + destruct (run_op_rejected_with_nothing api ToString JSON_stringify
                  op arg w Hn) as (e & _ & ->). eauto.
    + destruct (call_failed (api_op api op arg (storage w)).1) eqn:Hf.
      * destruct (run_op_failed api ToString JSON_stringify op arg w Hf Hn)
          as (message & mid & ->). eauto.
      * destruct (run_op_succeeded api ToString JSON_stringify op arg w Hf)
          as (response & _ & ->). eauto.
Qed.

(** *** Re-checks and reloads *)

(** When [checkAuthStatus] calls the server. *)
Lemma checkAuthStatus_fetches_iff_both_nonempty_aux api w :
  ((∃ r, events (checkAuthStatus api w).2
         = (events w ++ [ApiCall GetProfile r])%list)
   ↔ ∃ t u, storage w !! "token" = Some t ∧ t ≠ ""
            ∧ storage w !! "user" = Some u ∧ u ≠ "")
  ∧ ((¬ ∃ t u, storage w !! "token" = Some t ∧ t ≠ ""
               ∧ storage w !! "user" = Some u ∧ u ≠ "") →
     events (checkAuthStatus api w).2 = events w
     ∧ storage (checkAuthStatus api w).2 = storage w
     ∧ user (checkAuthStatus api w).2 = user w
     ∧ isAuthenticated (checkAuthStatus api w).2 = isAuthenticated w).
Proof.
  rewrite <- stored_both_nonempty.
  destruct (truthy (js_and (stored (storage w) "token")
                           (stored (storage w) "user"))) eqn:Hboth.
  - rewrite checkAuthStatus_fetch by exact Hboth.
    destruct (authAPI_getProfile api (storage w)) as [r st'].
    split; [|done]. split; [done|]. intros _. exists r.
    by destruct (call_failed r).
  - rewrite checkAuthStatus_skip by exact Hboth. simpl.
    split; [|done]. split; [|done].
    intros (r & Hr). apply (f_equal length) in Hr.
    rewrite length_app in Hr. simpl in Hr. lia.
Qed.

(** X3: [checkAuthStatus] calls the server exactly when both the stored
    token and the stored user are non-empty strings; an empty string under
    either key counts as absent, and then nothing but [loading] changes. *)
Theorem checkAuthStatus_fetches_iff_both_nonempty api w :
  let out := checkAuthStatus api w in
  ((∃ r, events out.2 = (events w ++ [ApiCall GetProfile r])%list)
   ↔ ∃ t u, storage w !! "token" = Some t ∧ t ≠ ""
            ∧ storage w !! "user" = Some u ∧ u ≠ "")
  ∧ ((¬ ∃ t u, storage w !! "token" = Some t ∧ t ≠ ""
               ∧ storage w !! "user" = Some u ∧ u ≠ "") →
     events out.2 = events w ∧ storage out.2 = storage w
     ∧ user out.2 = user w ∧ isAuthenticated out.2 = isAuthenticated w).
Proof. apply checkAuthStatus_fetches_iff_both_nonempty_aux. Qed.

Lemma checkAuthStatus_fetches_iff_both_nonempty_witness :
  let w := initial (<["token" := ""]> signed_in_storage) in
  events (checkAuthStatus accepting_api w).2 = events w
  ∧ storage (checkAuthStatus accepting_api w).2 = storage w
  ∧ user (checkAuthStatus accepting_api w).2 = user w
  ∧ isAuthenticated (checkAuthStatus accepting_api w).2 = isAuthenticated w.
Proof.
  apply (proj2 (checkAuthStatus_fetches_iff_both_nonempty accepting_api
                  (initial (<["token" := ""]> signed_in_storage)))).
  intros (t & u & Ht & Hne & _). vm_compute in Ht. congruence.
Defined.

(** X4: [checkAuthStatus] never signs the advisor out in memory.  Run on an
    authenticated provider whose stored session the server no longer
    accepts, it removes both keys from the storage but leaves [user] and
    [isAuthenticated] as they were. *)
Theorem failed_recheck_keeps_memory_state api w t u :
  storage w !! "token" = Some t → t ≠ "" →
  storage w !! "user" = Some u → u ≠ "" →
  call_failed (authAPI_getProfile api (storage w)).1 = true →
  let out := checkAuthStatus api w in
  storage out.2 !! "token" = None
  ∧ storage out.2 !! "user" = None
  ∧ user out.2 = user w
  ∧ isAuthenticated out.2 = isAuthenticated w.
Proof.
  intros Ht Hne Hu Hune Hf. cbn zeta.
  assert (Hboth : truthy (js_and (stored (storage w) "token")
                                 (stored (storage w) "user")) = true)
    by (apply stored_both_nonempty; eauto 10).
  rewrite checkAuthStatus_fetch by exact Hboth.
  destruct (authAPI_getProfile api (storage w)) as [r st']. simpl in *.
  rewrite Hf. simpl.
  split; [by rewrite lookup_delete_ne, lookup_delete_eq|].
  split; [by rewrite lookup_delete_eq|]. done.
Qed.

Lemma failed_recheck_keeps_memory_state_witness :
  let out := checkAuthStatus refusing_api signed_in in
  storage out.2 !! "token" = None
  ∧ storage out.2 !! "user" = None
  ∧ user out.2 = user signed_in
  ∧ isAuthenticated out.2 = isAuthenticated signed_in.
Proof.
  apply (failed_recheck_keeps_memory_state refusing_api signed_in
           "jwt" "advisor a1"); try reflexivity; discriminate.
Defined.

(** X5: the provider writes no storage key other than [token] and [user]:
    after any of its four operations, every other key holds what the API
    call left there. *)
Theorem provider_touches_only_its_keys api ToString JSON_stringify op arg w k :
  k ≠ "token" → k ≠ "user" →
  storage (checkAuthStatus api w).2 !! k
  = after_profile_call api (storage w) !! k
  ∧ storage (run_op api ToString JSON_stringify op arg w).2 !! k
    = (api_op api op arg (storage w)).2 !! k
  ∧ storage (logout api w).2 !! k = (authAPI_logout api (storage w)).2 !! k.
Proof.
  intros Htok Huser. split; [|split].
  - unfold after_profile_call.
    destruct (truthy (js_and (stored (storage w) "token")
                             (stored (storage w) "user"))) eqn:Hboth.
    + rewrite checkAuthStatus_fetch by exact Hboth.
      destruct (authAPI_getProfile api (storage w)) as [r st'].
      destruct (call_failed r); simpl; [|done].
      by rewrite !lookup_delete_ne.
    + by rewrite checkAuthStatus_skip.
  - destruct (rejected_with_nothing (api_op api op arg (storage w)).1) eqn:Hn;
      [by destruct (run_op_rejected_with_nothing api ToString JSON_stringify
                      op arg w Hn) as (e & _ & ->)|].
    destruct (call_failed (api_op api op arg (storage w)).1) eqn:Hf.
    + by destruct (run_op_failed api ToString JSON_stringify op arg w Hf Hn)
        as (message & mid & ->).
    + destruct (run_op_succeeded api ToString JSON_stringify op arg w Hf)
        as (response & _ & ->). simpl.
      by rewrite !lookup_insert_ne.
  - run. by destruct (authAPI_logout api (storage w)) as [[v|e] st'].
Qed.

Lemma provider_touches_only_its_keys_witness :
  let st : Storage := <["theme" := "dark"]> signed_in_storage in
  storage (checkAuthStatus refusing_api (initial st)).2 !! "theme"
  = after_profile_call refusing_api st !! "theme"
  ∧ storage (run_op refusing_api sample_ToString sample_stringify OpLogin
               sample_credentials (initial st)).2 !! "theme"
    = (api_op refusing_api OpLogin sample_credentials st).2 !! "theme"
  ∧ storage (logout refusing_api (initial st)).2 !! "theme"
    = (authAPI_logout refusing_api st).2 !! "theme".
Proof.
  cbn zeta.
  refine (provider_touches_only_its_keys refusing_api sample_ToString
            sample_stringify OpLogin sample_credentials
            (initial (<["theme" := "dark"]> signed_in_storage)) "theme" _ _);
    discriminate.
Defined.

(** X6: a failed check is final: once [checkAuthStatus] has purged the
    session after a failed profile fetch, running it again makes no API
    call and changes nothing. *)
Theorem failed_check_then_recheck_is_idle api w t u :
  storage w !! "token" = Some t → t ≠ "" →
  storage w !! "user" = Some u → u ≠ "" →
  call_failed (authAPI_getProfile api (storage w)).1 = true →
  let w1 := (checkAuthStatus api w).2 in
  checkAuthStatus api w1 = (Ok tt, w1).
Proof.
  intros Ht Hne Hu Hune Hf. cbn zeta.
  assert (Hboth : truthy (js_and (stored (storage w) "token")
                                 (stored (storage w) "user")) = true)
    by (apply stored_both_nonempty; eauto 10).
  rewrite (checkAuthStatus_fetch api w Hboth).
  destruct (authAPI_getProfile api (storage w)) as [r st']. simpl in *.
  rewrite Hf. simpl. apply checkAuthStatus_skip. simpl.
  unfold js_and, stored. by rewrite lookup_delete_ne, lookup_delete_eq.
Qed.

Lemma failed_check_then_recheck_is_idle_witness :
  let w1 := (checkAuthStatus unreachable_api signed_in).2 in
  checkAuthStatus unreachable_api w1 = (Ok tt, w1).
Proof.
  apply (failed_check_then_recheck_is_idle unreachable_api signed_in
           "jwt" "advisor a1"); try reflexivity; discriminate.
Defined.

(** X7: a logout does not outlive a reload when the API client leaves the
    browser storage alone: [logout] clears the state in memory, but the
    token and the user are still stored, so the reloaded provider fetches
    the profile and, if the server still accepts the token, is
    authenticated again. *)
Theorem logout_then_reload_signs_in_again api w t u response st' :
  storage w !! "token" = Some t → t ≠ "" →
  storage w !! "user" = Some u → u ≠ "" →
  (authAPI_logout api (storage w)).2 = storage w →
  authAPI_getProfile api (storage w) = (Ok response, st') →
  truthy (field response "success") = true →
  let w1 := (logout api w).2 in
  let w2 := (checkAuthStatus api (reload w1)).2 in
  isAuthenticated w1 = false
  ∧ user w1 = VNull
  ∧ isAuthenticated w2 = true
  ∧ user w2 = field response "advisor".
Proof.
  intros Ht Hne Hu Hune Hkeep Hprofile Hsucc. cbn zeta.
  assert (Hst : storage (logout api w).2 = storage w).
  { revert Hkeep. run.
    by destruct (authAPI_logout api (storage w)) as [[v|e] st'']. }
  assert (Hstate : isAuthenticated (logout api w).2 = false
                   ∧ user (logout api w).2 = VNull).
  { run. by destruct (authAPI_logout api (storage w)) as [[v|e] st'']. }
  destruct Hstate as [-> ->]. split; [done|]. split; [done|].
  unfold reload. rewrite Hst.
  rewrite checkAuthStatus_fetch
    by (apply stored_both_nonempty; simpl; eauto 10).
  simpl. rewrite Hprofile. simpl. by rewrite Hsucc.
Qed.

Lemma logout_then_reload_signs_in_again_witness :
  let w1 := (logout accepting_api signed_in).2 in
  let w2 := (checkAuthStatus accepting_api (reload w1)).2 in
  isAuthenticated w1 = false
  ∧ user w1 = VNull
  ∧ isAuthenticated w2 = true
  ∧ user w2 = field (VObj [("success", VBool true); ("advisor", sample_advisor)])
                "advisor".
Proof.
  apply (logout_then_reload_signs_in_again accepting_api signed_in
           "jwt" "advisor a1"
           (VObj [("success", VBool true); ("advisor", sample_advisor)])
           signed_in_storage); try reflexivity; discriminate.
Defined.

(** X8: a sign-in survives a reload exactly when what it stored is not
    blank: after a successful [login] or [register], the reloaded provider
    fetches the profile if and only if both strings that the operation
    stored (the token and the serialized advisor) are non-empty. *)
Theorem sign_in_then_reload_fetches_iff api ToString JSON_stringify op arg w response :
  (api_op api op arg (storage w)).1 = Ok response →
  truthy (field response "success") = true →
  let out := run_op api ToString JSON_stringify op arg w in
  (∃ r, events (checkAuthStatus api (reload out.2)).2 = [ApiCall GetProfile r])
  ↔ ToString (field response "token") ≠ ""
    ∧ ToString (JSON_stringify (field response "advisor")) ≠ "".
Proof.
  intros Hr Hsucc. cbn zeta.
  assert (Hok : call_failed (api_op api op arg (storage w)).1 = false)
    by (by rewrite Hr; simpl; rewrite Hsucc).
  destruct (run_op_succeeded api ToString JSON_stringify op arg w Hok)
    as (response' & Hr' & ->).
  rewrite Hr in Hr'. inversion Hr'; subst response'. clear Hr'.
  unfold reload. cbn [snd storage].
  set (st := <["user" := _]> _).
  pose proof (checkAuthStatus_fetches_iff_both_nonempty_aux api (initial st))
    as [Hiff _].
  simpl in Hiff. rewrite Hiff. unfold st.
  rewrite lookup_insert_ne, !lookup_insert_eq by done.
  split.
  - intros (t & u & Ht & Hne & Hu & Hune).
    inversion Ht; inversion Hu; by subst.
  - intros [Hne Hune]. eauto 10.
Qed.

Lemma sign_in_then_reload_fetches_iff_witness :
  ∃ r, events (checkAuthStatus accepting_api
                 (reload (run_op accepting_api sample_ToString sample_stringify
                            OpLogin sample_credentials (initial ∅)).2)).2
       = [ApiCall GetProfile r].
Proof.
  apply (proj2 (sign_in_then_reload_fetches_iff accepting_api sample_ToString
                  sample_stringify OpLogin sample_credentials (initial ∅)
                  (VObj [("success", VBool true); ("token", VStr "jwt");
                         ("advisor", sample_advisor)])
                  eq_refl eq_refl)).
  split; discriminate.
Defined.

End AuthContextFacts.

(** ** Properties of the Express application *)

Module ServerFacts.

Import Server.

(** *** The dispatch loop *)

Lemma dispatch_cons l rest pending c :
  dispatch (l :: rest) pending c =
    let continue (o : Outcome) : list Stage * Conn :=
      match o with
      | Next c' =>
          (name l :: (dispatch rest None c').1, (dispatch rest None c').2)
      | NextErr e c' =>
          (name l :: (dispatch rest (Some e) c').1, (dispatch rest (Some e) c').2)
      | End c' => ([name l], c')
      end in
    if matches l (req c) then
      match handle l, pending with
      | Normal h, None => continue (h c)
      | ErrorH h, Some e => continue (h e c)
      | _, _ => dispatch rest pending c
      end
    else dispatch rest pending c.
Proof.
  simpl. destruct (matches l (req c)); [|reflexivity].
  destruct (handle l) as [h|h], pending as [e|]; try reflexivity.
  - destruct (h c) as [c'|e c'|c']; try reflexivity;
      by destruct (dispatch rest _ c').
  - destruct (h e c) as [c'|e' c'|c']; try reflexivity;
      by destruct (dispatch rest _ c').
Qed.

(** A layer registered with [app.use(h)] runs on every request that is not
    in error. *)
Lemma dispatch_use s h rest c :
  dispatch (use s h :: rest) None c =
    match h c with
    | Next c' => (s :: (dispatch rest None c').1, (dispatch rest None c').2)
    | NextErr e c' =>
        (s :: (dispatch rest (Some e) c').1, (dispatch rest (Some e) c').2)
    | End c' => ([s], c')
    end.
Proof. by rewrite dispatch_cons. Qed.

(** With an error pending, the layers that are not error handlers are
    passed over. *)
Lemma dispatch_skip_normal l rest e c :
  (∃ h, handle l = Normal h) →
  dispatch (l :: rest) (Some e) c = dispatch rest (Some e) c.
Proof.
  intros [h Hh]. rewrite dispatch_cons. cbn zeta. rewrite Hh.
  by destruct (matches l (req c)).
Qed.

(** Without one, the error handlers are. *)
Lemma dispatch_skip_error s h rest c :
  dispatch (use_error s h :: rest) None c = dispatch rest None c.
Proof. by rewrite dispatch_cons. Qed.

Lemma dispatch_unmatched l rest pending c :
  matches l (req c) = false →
  dispatch (l :: rest) pending c = dispatch rest pending c.
Proof. intros H. rewrite dispatch_cons. cbn zeta. by rewrite H. Qed.

Lemma dispatch_use_error s h rest e c :
  dispatch (use_error s h :: rest) (Some e) c =
    match h e c with
    | Next c' => (s :: (dispatch rest None c').1, (dispatch rest None c').2)
    | NextErr e' c' =>
        (s :: (dispatch rest (Some e') c').1, (dispatch rest (Some e') c').2)
    | End c' => ([s], c')
    end.
Proof. by rewrite dispatch_cons. Qed.


(** *** Status and body *)

Lemma status_json_valid code v c n :
  status_code code = Some n →
  status_json code v c
  = End (with_res (fun r =>
           {| statusCode := statusCode r; headers := headers r;
              sent := if is_HEAD (method (req c)) || bodiless n
                      then None else Some (wire v) |})
           (set_statusCode code c)).
Proof.
  intros Hcode. unfold status_json, status. rewrite Hcode. unfold json.
  cbn [set_statusCode with_res res statusCode req]. by rewrite Hcode.
Qed.

Lemma status_json_invalid code v c :
  status_code code = None →
  status_json code v c = NextErr (invalid_status code) c.
Proof. intros Hcode. unfold status_json, status. by rewrite Hcode. Qed.

Lemma status_json_logs code v c : logs (conn_of (status_json code v c)) = logs c.
Proof.
  destruct (status_code code) as [n|] eqn:Hcode.
  - by rewrite (status_json_valid _ _ _ n).
  - by rewrite status_json_invalid.
Qed.

Lemma status_json_req code v c : req (conn_of (status_json code v c)) = req c.
Proof.
  destruct (status_code code) as [n|] eqn:Hcode.
  - by rewrite (status_json_valid _ _ _ n).
  - by rewrite status_json_invalid.
Qed.

Lemma json_req v c : req (conn_of (json v c)) = req c.
Proof. unfold json. by destruct (status_code _). Qed.


(** The answer of the global error handler to an error whose status is a
    status code. *)
Lemma errorHandler_answers env err c n :
  status_code (js_or (exn_field err "status") (VNum 500)) = Some n →
  ∃ c', errorHandler env err c = End c'
    ∧ req c' = req c
    ∧ statusCode (res c') = js_or (exn_field err "status") (VNum 500)
    ∧ sent (res c')
      = if is_HEAD (method (req c)) || bodiless n then None
        else Some (wire (VObj [("success", VBool false);
                               ("message", VStr "Something went wrong!");
                               ("error", if String.eqb (NODE_ENV env) "production"
                                         then VStr "Internal server error"
                                         else exn_field err "message");
                               ("requestId", requestId (req c))])).
Proof.
  intros Hcode. unfold errorHandler.
  rewrite (status_json_valid _ _ _ n Hcode). eexists. split; [reflexivity|].
  done.
Qed.

Lemma errorHandler_throws env err c :
  status_code (js_or (exn_field err "status") (VNum 500)) = None →
  ∃ c', errorHandler env err c
        = NextErr (invalid_status (js_or (exn_field err "status") (VNum 500))) c'
        ∧ req c' = req c ∧ res c' = res c.
Proof.
  intros Hcode. unfold errorHandler.
  rewrite (status_json_invalid _ _ _ Hcode). eexists. split; [reflexivity|].
  done.
Qed.

(** The fields of the body that the error handler sends. *)
Lemma error_body_fields (detail rid : Value) :
  let b := wire (VObj [("success", VBool false);
                       ("message", VStr "Something went wrong!");
                       ("error", detail);
                       ("requestId", rid)]) in
  field b "success" = VBool false
  ∧ field b "error" = wire detail
  ∧ field b "requestId" = wire rid.
Proof. cbn. destruct (wire detail), (wire rid); done. Qed.



Lemma serve_trace env mw auth clients m :
  (serve env mw auth clients m).1
  = (dispatch (app env mw auth clients) None (start m)).1.
Proof. unfold serve. by destruct (dispatch _ _ _). Qed.

Lemma serve_response env mw auth clients m :
  (serve env mw auth clients m).2
  = res (dispatch (app env mw auth clients) None (start m)).2.
Proof. unfold serve. by destruct (dispatch _ _ _). Qed.

(** *** The application on the sample requests *)

Example health_probe_served :
  let out := serve development_env (spec_requestLogger "req-1") login_router
               no_routes (bare GET "/") in
  out.1 = [SAddRequestId; SMorgan; SRequestLogger; SSecurityLogger; SCors;
           SJson; SUrlencoded; SHealth]
  ∧ statusCode out.2 = VNum 200
  ∧ body_field out.2 "database" = VStr "connected"
  ∧ body_field out.2 "environment" = VStr "development".
Proof. vm_compute. repeat split. Qed.

Example login_route_mounted :
  let out := serve development_env (spec_requestLogger "req-1") login_router
               no_routes
               (post "/API/auth/login" ApplicationJson
                  (mkPayload 40 (Some sample_body) None)) in
  last out.1 = Some SAuth ∧ statusCode out.2 = VNum 401.
Proof. vm_compute. repeat split. Qed.

Example malformed_json_is_400 :
  let out := serve production_env (spec_requestLogger "req-1") login_router
               no_routes
               (post "/api/auth/login" ApplicationJson (mkPayload 7 None None)) in
  last out.1 = Some SErrorHandler
  ∧ statusCode out.2 = VNum 400
  ∧ body_field out.2 "error" = VStr "Internal server error"
  ∧ body_field out.2 "requestId" = VStr "req-1".
Proof. vm_compute. repeat split. Qed.

(** *** Order of the stages *)









(** *** Who answers *)

Section Ending.

(** [I pending c] holds of the connection on its way through the stack;
    [Q s c] is what is wanted of the connection that layer [s] ends. *)
Variable I : option Exn → Conn → Prop.
Variable Q : Stage → Conn → Prop.


End Ending.

(** *** What the stages leave of the request *)

Lemma cors_req o c : req (conn_of (cors o c)) = req c.
Proof.
  unfold cors. destruct (is_OPTIONS _); simpl;
    destruct (cors_credentials o), (origin (req c)) as [og|]; simpl;
    try destruct (existsb _ _); reflexivity.
Qed.

Lemma body_parser_requestId read c :
  requestId (req (conn_of (body_parser read c))) = requestId (req c).
Proof.
  unfold body_parser. destruct (body_parsed (req c)); [done|].
  by destruct (read (req c)).
Qed.

Lemma body_parser_message read c :
  message_of (req (conn_of (body_parser read c))) = message_of (req c).
Proof.
  unfold body_parser. destruct (body_parsed (req c)); [done|].
  by destruct (read (req c)).
Qed.

(** The answer of the 404 handler. *)
Lemma notFoundHandler_answers c :
  ∃ c', notFoundHandler c = End c'
    ∧ req c' = req c
    ∧ statusCode (res c') = VNum 404
    ∧ sent (res c')
      = if is_HEAD (method (req c)) then None
        else Some (wire (VObj [("success", VBool false);
                               ("message", VStr "Route not found");
                               ("requestId", requestId (req c))])).
Proof.
  unfold notFoundHandler.
  rewrite (status_json_valid _ _ _ 404) by reflexivity.
  eexists. split; [reflexivity|]. cbn. by rewrite orb_false_r.
Qed.







(** *** Success flag and correlation ID in the bodies *)




(** *** The global error handler *)




(** *** Requests that match no route *)

(** C5, as stated, fails: a request whose path matches no route is answered
    before the 404 handler when an earlier stage ends it.  A POST to
    [/api/unknown] with a JSON body of 11 MB is answered 413 by the error
    handler, and a CORS preflight to the same path 204 by the CORS stage. *)
Lemma unmatched_request_not_always_404 :
  matches_route no_routes no_routes
    (post "/api/unknown" ApplicationJson eleven_mb) = false
  ∧ (serve development_env (spec_requestLogger "req-1") no_routes no_routes
       (post "/api/unknown" ApplicationJson eleven_mb)).1
    = [SAddRequestId; SMorgan; SRequestLogger; SSecurityLogger; SCors; SJson;
       SErrorHandler]
  ∧ statusCode (serve development_env (spec_requestLogger "req-1")
                  no_routes no_routes
                  (post "/api/unknown" ApplicationJson eleven_mb)).2
    = VNum 413
  ∧ matches_route no_routes no_routes (bare OPTIONS "/api/unknown") = false
  ∧ statusCode (serve development_env (spec_requestLogger "req-1")
                  no_routes no_routes (bare OPTIONS "/api/unknown")).2
    = VNum 204.
Proof. vm_compute. repeat split. Qed.

Lemma matches_route_false auth clients m :
  matches_route auth clients m = false →
  ∀ r, message_of r = m →
    matches (get_root SHealth (health development_env)) r = false
    ∧ matches (use_router SAuth "/api/auth" auth) r = false
    ∧ matches (use_router SClients "/api/clients" clients) r = false.
Proof.
  unfold matches_route. intros H r <-.
  apply orb_false_iff in H as [H Hc]. apply orb_false_iff in H as [Hh Ha].
  done.
Qed.

Lemma cors_next o c :
  is_OPTIONS (method (req c)) = false →
  cors o c = Next (conn_of (cors o c)).
Proof. unfold cors. by intros ->. Qed.

Lemma body_parser_next (read : Message → Read) c :
  body_parsed (req c) = true ∨ (∀ e, read (req c) ≠ Failed e) →
  body_parser read c = Next (conn_of (body_parser read c)).
Proof.
  unfold body_parser. intros [-> | Hread]; [done|].
  destruct (body_parsed (req c)); [done|].
  destruct (read (req c)) as [|v|e]; [done | done | by destruct (Hread e)].
Qed.

Lemma body_parser_failed (read : Message → Read) c e :
  body_parsed (req c) = false → read (req c) = Failed e →
  body_parser read c = NextErr e (conn_of (body_parser read c)).
Proof. unfold body_parser. by intros -> ->. Qed.

Lemma body_parser_flag (read : Message → Read) c :
  body_parsed (req (conn_of (body_parser read c)))
  = body_parsed (req c)
    || match read (req c) with Skip => false | _ => true end.
Proof.
  unfold body_parser. destruct (body_parsed (req c)) eqn:Hp; [done|].
  by destruct (read (req c)).
Qed.

(** The connection that the body parsers receive, with the four logging
    middleware as the spec has them. *)
Lemma serve_to_parsers env id auth clients m :
  is_OPTIONS (method m) = false →
  ∃ c, dispatch (app env (spec_requestLogger id) auth clients) None (start m)
       = (let d := dispatch (drop 5 (app env (spec_requestLogger id) auth clients))
                     None c in
          ((take 5 pipeline ++ d.1)%list, d.2))
       ∧ message_of (req c) = m
       ∧ requestId (req c) = VStr id
       ∧ body_parsed (req c) = false.
Proof.
  intros Hopt. unfold app.
  do 4 (rewrite dispatch_use; cbn [addRequestId morganMiddleware
    requestLogger securityLogger spec_requestLogger]).
  rewrite dispatch_use.
  match goal with |- context [cors ?o ?c] => set (c4 := c) end.
  rewrite (cors_next _ c4) by exact Hopt.
  exists (conn_of (cors (cors_options env) c4)).
  rewrite cors_req. done.
Qed.

(** C5, amended: every request that is not a CORS preflight, whose body
    the parsers accept, and that matches no registered route is answered
    by the 404 handler, with status 404 and, unless it is a HEAD request,
    which gets no body, the body [{success: false, message, requestId}] in
    which [requestId] is the correlation ID generated for the request. *)
Theorem unmatched_request_gets_404 env id auth clients m :
  is_OPTIONS (method m) = false →
  body_accepted m = true →
  matches_route auth clients m = false →
  let out := serve env (spec_requestLogger id) auth clients m in
  last out.1 = Some SNotFound
  ∧ statusCode out.2 = VNum 404
  ∧ sent out.2 = if is_HEAD (method m) then None
                 else Some (VObj [("success", VBool false);
                                  ("message", VStr "Route not found");
                                  ("requestId", VStr id)]).
Proof.
  intros Hopt Hbody Hroute. cbn zeta. rewrite serve_trace, serve_response.
  pose proof (matches_route_false auth clients m Hroute) as Hno.
  destruct (serve_to_parsers env id auth clients m Hopt)
    as (c5 & -> & Hm5 & Hid5 & Hp5).
  cbn [drop app]. cbn zeta.
  unfold body_accepted in Hbody.
  (* the JSON parser *)
  rewrite dispatch_use. unfold express_json.
  set (c6 := conn_of (body_parser (read_json (bytes_mb 10) true) c5)).
  assert (Hm6 : message_of (req c6) = m)
    by (unfold c6; by rewrite body_parser_message).
  assert (Hid6 : requestId (req c6) = VStr id)
    by (unfold c6; by rewrite body_parser_requestId).
  rewrite (body_parser_next _ c5); fold c6.
  2:{ right. intros e. rewrite Hm5. by destruct (read_json _ _ m). }
  (* the form parser *)
  rewrite dispatch_use. unfold express_urlencoded.
  set (c7 := conn_of (body_parser (read_form (bytes_mb 10)) c6)).
  assert (Hm7 : message_of (req c7) = m)
    by (unfold c7; by rewrite body_parser_message).
  assert (Hid7 : requestId (req c7) = VStr id)
    by (unfold c7; by rewrite body_parser_requestId).
  rewrite (body_parser_next _ c6); fold c7.
  2:{ assert (Hflag := body_parser_flag (read_json (bytes_mb 10) true) c5).
      fold c6 in Hflag. rewrite Hp5, Hm5 in Hflag. rewrite Hm6.
      destruct (read_json _ _ m); [|by left|done].
      right. intros e. by destruct (read_form _ m). }
  (* no route, no error: the 404 handler *)
  rewrite !dispatch_unmatched by (by apply Hno).
  rewrite dispatch_skip_error, dispatch_use.
  destruct (notFoundHandler_answers c7) as (c' & -> & _ & Hstatus & Hsent).
  cbn [fst snd].
  split; [done|]. split; [exact Hstatus|].
  by rewrite Hsent, Hid7, Hm7.
Qed.

Lemma unmatched_request_gets_404_witness :
  let out := serve development_env (spec_requestLogger "req-1")
               login_router no_routes (bare GET "/api/unknown") in
  last out.1 = Some SNotFound
  ∧ statusCode out.2 = VNum 404
  ∧ sent out.2 = Some (VObj [("success", VBool false);
                             ("message", VStr "Route not found");
                             ("requestId", VStr "req-1")]).
Proof.
  apply (unmatched_request_gets_404 development_env "req-1" login_router
           no_routes (bare GET "/api/unknown")); reflexivity.
Defined.

(** *** Bodies over the limit *)

(** C8, as stated, fails: the parsers only read bodies declared as JSON or
    as URL-encoded forms.  A POST of 11 MB of plain text to
    [/api/auth/login] passes both of them and reaches the route handler. *)
Lemma oversized_plain_text_reaches_route :
  let m := post "/api/auth/login" (OtherMedia "text/plain") eleven_mb in
  let out := serve development_env (spec_requestLogger "req-1")
               login_router no_routes m in
  (bytes_mb 10 <? payload_length eleven_mb)%Z = true
  ∧ out.1 = [SAddRequestId; SMorgan; SRequestLogger; SSecurityLogger; SCors;
             SJson; SUrlencoded; SAuth]
  ∧ statusCode out.2 = VNum 401.
Proof. vm_compute. repeat split. Qed.

Lemma too_large_status :
  status_code (js_or (exn_field (http_error 413 "request entity too large")
                        "status") (VNum 500)) = Some 413%Z.
Proof. reflexivity. Qed.

(** C8, amended: every POST request whose body is declared as JSON or as a
    URL-encoded form and is longer than the 10 MB limit (10 * 1024 * 1024
    bytes) is rejected by the body parser that reads it; no route handler
    runs, and the error handler answers with status 413, [success: false]
    and the correlation ID. *)
Theorem oversized_body_rejected env id auth clients m pl :
  method m = POST →
  payload m = Some pl →
  content_type m = Some ApplicationJson ∨ content_type m = Some FormUrlencoded →
  (bytes_mb 10 < payload_length pl)%Z →
  let out := serve env (spec_requestLogger id) auth clients m in
  (out.1 = [SAddRequestId; SMorgan; SRequestLogger; SSecurityLogger; SCors;
            SJson; SErrorHandler]
   ∨ out.1 = [SAddRequestId; SMorgan; SRequestLogger; SSecurityLogger; SCors;
              SJson; SUrlencoded; SErrorHandler])
  ∧ (∀ s, s ∈ out.1 → is_route s = false)
  ∧ statusCode out.2 = VNum 413
  ∧ body_field out.2 "success" = VBool false
  ∧ body_field out.2 "requestId" = VStr id.
Proof.
  intros Hpost Hpl Htype Hlen. cbn zeta.
  assert (Hroutes : ∀ t : list Stage,
            t = [SAddRequestId; SMorgan; SRequestLogger; SSecurityLogger; SCors;
                 SJson; SErrorHandler]
            ∨ t = [SAddRequestId; SMorgan; SRequestLogger; SSecurityLogger;
                   SCors; SJson; SUrlencoded; SErrorHandler] →
            ∀ s, s ∈ t → is_route s = false).
  { intros t [-> | ->] s; rewrite !elem_of_cons, elem_of_nil;
      intros H; repeat destruct H as [-> | H]; done. }
  assert (Hopt : is_OPTIONS (method m) = false) by by rewrite Hpost.
  apply Z.ltb_lt in Hlen.
  rewrite serve_trace, serve_response.
  destruct (serve_to_parsers env id auth clients m Hopt)
    as (c5 & -> & Hm5 & Hid5 & Hp5).
  cbn [drop app]. cbn zeta.
  rewrite dispatch_use. unfold express_json.
  set (c6 := conn_of (body_parser (read_json (bytes_mb 10) true) c5)).
  assert (Hid6 : requestId (req c6) = VStr id)
    by (unfold c6; by rewrite body_parser_requestId).
  assert (Hm6 : message_of (req c6) = m)
    by (unfold c6; by rewrite body_parser_message).
  destruct Htype as [Hjson | Hform].
  - (* the JSON parser rejects it *)
    rewrite (body_parser_failed _ c5 (http_error 413 "request entity too large"));
      [fold c6 | exact Hp5
       | by rewrite Hm5; unfold read_json; rewrite Hpl, Hjson; simpl; rewrite Hlen].
    repeat (rewrite dispatch_skip_normal by (eexists; reflexivity)).
    rewrite dispatch_use_error.
    destruct (errorHandler_answers env _ c6 413 too_large_status)
      as (c' & -> & _ & Hstatus & Hsent).
    cbn [fst snd List.app take pipeline].
    rewrite Hm6, Hpost in Hsent. cbn [is_HEAD bodiless orb] in Hsent.
    unfold body_field. rewrite Hsent, Hid6.
    split; [by left|]. split; [apply Hroutes; by left|].
    split; [exact Hstatus|].
    by destruct (error_body_fields
                   (if String.eqb (NODE_ENV env) "production"
                    then VStr "Internal server error"
                    else exn_field (http_error 413 "request entity too large")
                           "message") (VStr id)) as (? & _ & ?).
  - (* the JSON parser skips it, the form parser rejects it *)
    rewrite (body_parser_next _ c5); fold c6.
    2:{ right. intros e. rewrite Hm5. unfold read_json. by rewrite Hpl, Hform. }
    assert (Hp6 : body_parsed (req c6) = false).
    { unfold c6. rewrite body_parser_flag, Hp5, Hm5.
      unfold read_json. by rewrite Hpl, Hform. }
    rewrite dispatch_use. unfold express_urlencoded.
    set (c7 := conn_of (body_parser (read_form (bytes_mb 10)) c6)).
    assert (Hid7 : requestId (req c7) = VStr id)
      by (unfold c7; by rewrite body_parser_requestId).
    rewrite (body_parser_failed _ c6 (http_error 413 "request entity too large"));
      [fold c7 | exact Hp6
       | by rewrite Hm6; unfold read_form; rewrite Hpl, Hform; simpl; rewrite Hlen].
    assert (Hm7 : message_of (req c7) = m)
      by (unfold c7; by rewrite body_parser_message).
    repeat (rewrite dispatch_skip_normal by (eexists; reflexivity)).
    rewrite dispatch_use_error.
    destruct (errorHandler_answers env _ c7 413 too_large_status)
      as (c' & -> & _ & Hstatus & Hsent).
    cbn [fst snd List.app take pipeline].
    rewrite Hm7, Hpost in Hsent. cbn [is_HEAD bodiless orb] in Hsent.
    unfold body_field. rewrite Hsent, Hid7.
    split; [by right|]. split; [apply Hroutes; by right|].
    split; [exact Hstatus|].
    by destruct (error_body_fields
                   (if String.eqb (NODE_ENV env) "production"
                    then VStr "Internal server error"
                    else exn_field (http_error 413 "request entity too large")
                           "message") (VStr id)) as (? & _ & ?).
Qed.

Lemma oversized_body_rejected_witness :
  let out := serve development_env (spec_requestLogger "req-1") login_router
               no_routes (post "/api/auth/login" ApplicationJson eleven_mb) in
  (out.1 = [SAddRequestId; SMorgan; SRequestLogger; SSecurityLogger; SCors;
            SJson; SErrorHandler]
   ∨ out.1 = [SAddRequestId; SMorgan; SRequestLogger; SSecurityLogger; SCors;
              SJson; SUrlencoded; SErrorHandler])
  ∧ (∀ s, s ∈ out.1 → is_route s = false)
  ∧ statusCode out.2 = VNum 413
  ∧ body_field out.2 "success" = VBool false
  ∧ body_field out.2 "requestId" = VStr "req-1".
Proof.
  apply (oversized_body_rejected development_env "req-1" login_router no_routes
           (post "/api/auth/login" ApplicationJson eleven_mb) eleven_mb).
  - reflexivity.
  - reflexivity.
  - left. reflexivity.
  - reflexivity.
Defined.

(** *** From the socket to the routes *)

Lemma cors_res o c :
  is_OPTIONS (method (req c)) = false →
  statusCode (res (conn_of (cors o c))) = statusCode (res c)
  ∧ sent (res (conn_of (cors o c))) = sent (res c).
Proof.
  unfold cors. intros ->.
  destruct (cors_credentials o), (origin (req c)) as [og|]; simpl;
    try destruct (existsb _ _); done.
Qed.

Lemma body_parser_res read c : res (conn_of (body_parser read c)) = res c.
Proof.
  unfold body_parser. destruct (body_parsed (req c)); [done|].
  by destruct (read (req c)).
Qed.

Lemma body_parser_advisor read c :
  advisor (req (conn_of (body_parser read c))) = advisor (req c).
Proof.
  unfold body_parser. destruct (body_parsed (req c)); [done|].
  by destruct (read (req c)).
Qed.

Lemma body_parser_body (read : Message → Read) c :
  body (req (conn_of (body_parser read c)))
  = if body_parsed (req c) then body (req c)
    else match read (req c) with
         | Parsed v => v
         | _ => js_or (body (req c)) (VObj [])
         end.
Proof.
  unfold body_parser. destruct (body_parsed (req c)); [done|].
  by destruct (read (req c)).
Qed.

(** The connection that the routes receive from the pipeline, with the
    four logging middleware as the spec has them. *)
Lemma serve_to_routes env id auth clients m :
  is_OPTIONS (method m) = false →
  body_accepted m = true →
  ∃ c, dispatch (app env (spec_requestLogger id) auth clients) None (start m)
       = (let d := dispatch (drop 7 (app env (spec_requestLogger id) auth clients))
                     None c in
          ((pipeline ++ d.1)%list, d.2))
       ∧ message_of (req c) = m
       ∧ requestId (req c) = VStr id
       ∧ advisor (req c) = VUndef
       ∧ body (req c) = parsed_body m
       ∧ statusCode (res c) = VNum 200
       ∧ sent (res c) = None.
Proof.
  intros Hopt Hbody. unfold app.
  do 4 (rewrite dispatch_use; cbn [addRequestId morganMiddleware
    requestLogger securityLogger spec_requestLogger]).
  rewrite dispatch_use.
  match goal with |- context [cors ?o ?c] => set (c4 := c) end.
  rewrite (cors_next _ c4) by exact Hopt.
  set (c5 := conn_of (cors (cors_options env) c4)).
  assert (Hreq5 : req c5 = req c4) by apply cors_req.
  destruct (cors_res (cors_options env) c4 Hopt) as [Hst5 Hsent5]. fold c5 in Hst5, Hsent5.
  rewrite dispatch_use. unfold express_json.
  set (c6 := conn_of (body_parser (read_json (bytes_mb 10) true) c5)).
  unfold body_accepted in Hbody.
  rewrite (body_parser_next _ c5); fold c6.
  2:{ right. intros e. rewrite Hreq5. cbn [c4 req with_req log setHeader
        with_res start set_requestId message_of].
      by destruct (read_json _ _ m). }
  rewrite dispatch_use. unfold express_urlencoded.
  set (c7 := conn_of (body_parser (read_form (bytes_mb 10)) c6)).
  assert (Hm6 : message_of (req c6) = m)
    by (unfold c6; by rewrite body_parser_message, Hreq5).
  assert (Hp6 : body_parsed (req c6)
                = match read_json (bytes_mb 10) true m with
                  | Skip => false | _ => true end)
    by (unfold c6; by rewrite body_parser_flag, Hreq5).
  assert (Hb6 : body (req c6)
                = match read_json (bytes_mb 10) true m with
                  | Parsed v => v | _ => VObj [] end)
    by (unfold c6; by rewrite body_parser_body, Hreq5).
  rewrite (body_parser_next _ c6); fold c7.
  2:{ rewrite Hp6, Hm6. destruct (read_json _ _ m); [|by left|done].
      right. intros e. by destruct (read_form _ m). }
  exists c7. cbn [drop]. split; [done|].
  unfold c7. rewrite body_parser_message, body_parser_requestId,
    body_parser_advisor, body_parser_body, body_parser_res.
  rewrite Hm6, Hp6, Hb6. unfold c6.
  rewrite body_parser_requestId, body_parser_advisor, body_parser_res, Hreq5.
  rewrite Hst5, Hsent5. unfold parsed_body.
  repeat split; try done.
  destruct (read_json _ _ m); [|done|done].
  by destruct (read_form _ m).
Qed.

Lemma dispatch_matched l h rest c :
  matches l (req c) = true → handle l = Normal h →
  dispatch (l :: rest) None c =
    match h c with
    | Next c' => (name l :: (dispatch rest None c').1, (dispatch rest None c').2)
    | NextErr e c' =>
        (name l :: (dispatch rest (Some e) c').1, (dispatch rest (Some e) c').2)
    | End c' => ([name l], c')
    end.
Proof. intros Hm Hh. rewrite dispatch_cons. cbn zeta. by rewrite Hm, Hh. Qed.


(** *** The health probe *)

(** X13: every GET or HEAD of [/] whose body (if any) the parsers accept
    is answered by the health route, whatever its origin and whatever the
    routers are, with status 200.  The body of the answer to a GET has
    [status] [active], [environment] the runtime mode, [uptime] as read, and
    [database] reading [connected] exactly when the connection's
    [readyState] is 1; the answer to a HEAD has no body. *)
Theorem health_probe_reports env id auth clients m :
  method m = GET ∨ method m = HEAD →
  at_root (path m) = true →
  body_accepted m = true →
  let out := serve env (spec_requestLogger id) auth clients m in
  out.1 = (pipeline ++ [SHealth])%list
  ∧ statusCode out.2 = VNum 200
  ∧ (method m = HEAD → sent out.2 = None)
  ∧ (method m = GET →
     body_field out.2 "status" = VStr "active"
     ∧ body_field out.2 "environment" = VStr (NODE_ENV env)
     ∧ body_field out.2 "uptime" = VNum (uptime env)
     ∧ (body_field out.2 "database" = VStr "connected" ↔ readyState env = 1%Z)).
Proof.
  intros Hmethod Hroot Hbody. cbn zeta.
  assert (Hopt : is_OPTIONS (method m) = false)
    by (by destruct Hmethod as [-> | ->]).
  rewrite serve_trace, serve_response.
  destruct (serve_to_routes env id auth clients m Hopt Hbody)
    as (c & -> & Hm & _ & _ & _ & Hst & _).
  cbn [drop app]. cbn zeta.
  rewrite (dispatch_matched _ (health env)); [| |done].
  2:{ cbn [matches get_root]. rewrite Hm.
      by destruct Hmethod as [-> | ->]. }
  unfold health, json. cbn [log res statusCode req]. rewrite Hst, Hm.
  change (status_code (VNum 200)) with (Some 200%Z).
  cbn [fst snd name get_root with_res res statusCode sent bodiless].
  split; [done|]. split; [exact Hst|]. split.
  - by intros ->.
  - intros ->. unfold body_field. cbn.
    do 3 (split; [done|]).
    destruct (Z.eqb_spec (readyState env) 1); split; congruence.
Qed.

Lemma health_probe_reports_witness :
  let out := serve production_env (spec_requestLogger "req-1") login_router
               no_routes (from GET "/" "https://elsewhere.example") in
  out.1 = (pipeline ++ [SHealth])%list
  ∧ statusCode out.2 = VNum 200
  ∧ body_field out.2 "status" = VStr "active"
  ∧ body_field out.2 "environment" = VStr (NODE_ENV production_env)
  ∧ body_field out.2 "uptime" = VNum (uptime production_env)
  ∧ (body_field out.2 "database" = VStr "connected"
     ↔ readyState production_env = 1%Z).
Proof.
  cbn zeta.
  destruct (health_probe_reports production_env "req-1" login_router no_routes
              (from GET "/" "https://elsewhere.example")
              (or_introl eq_refl) eq_refl eq_refl)
    as (Htrace & Hstatus & _ & Hbody).
  split; [exact Htrace|]. split; [exact Hstatus|].
  apply Hbody. reflexivity.
Defined.

(** *** Malformed JSON *)

(** X14: a request declared as JSON whose body, within the limit and not
    empty, is not well-formed JSON, or is JSON but neither an object nor an
    array (the parser is strict), is rejected by the JSON parser: no route
    runs, and the error handler answers with status 400 and, unless the
    request is a HEAD, [success: false] and the correlation ID in the
    body. *)
Theorem malformed_json_rejected env id auth clients m pl :
  is_OPTIONS (method m) = false →
  content_type m = Some ApplicationJson →
  payload m = Some pl →
  (0 < payload_length pl ≤ bytes_mb 10)%Z →
  payload_json pl = None
  ∨ (∃ v, payload_json pl = Some v ∧ is_container v = false) →
  let out := serve env (spec_requestLogger id) auth clients m in
  out.1 = [SAddRequestId; SMorgan; SRequestLogger; SSecurityLogger; SCors;
           SJson; SErrorHandler]
  ∧ statusCode out.2 = VNum 400
  ∧ (is_HEAD (method m) = true → sent out.2 = None)
  ∧ (is_HEAD (method m) = false →
     body_field out.2 "success" = VBool false
     ∧ body_field out.2 "requestId" = VStr id).
Proof.
  intros Hopt Htype Hpl [Hpos Hlen] Hbad. cbn zeta.
  rewrite serve_trace, serve_response.
  destruct (serve_to_parsers env id auth clients m Hopt)
    as (c5 & -> & Hm5 & Hid5 & Hp5).
  cbn [drop app]. cbn zeta.
  rewrite dispatch_use. unfold express_json.
  set (c6 := conn_of (body_parser (read_json (bytes_mb 10) true) c5)).
  assert (Hid6 : requestId (req c6) = VStr id)
    by (unfold c6; by rewrite body_parser_requestId).
  assert (Hm6 : message_of (req c6) = m)
    by (unfold c6; by rewrite body_parser_message).
  rewrite (body_parser_failed _ c5 (http_error 400 "Unexpected token in JSON"));
    [fold c6 | exact Hp5 |].
  2:{ rewrite Hm5. unfold read_json. rewrite Hpl, Htype. simpl.
      destruct (Z.ltb_spec (bytes_mb 10) (payload_length pl)); [lia|].
      destruct (Z.eqb_spec (payload_length pl) 0); [lia|].
      destruct Hbad as [-> | (v & -> & Hv)]; [done|]. by rewrite Hv. }
  repeat (rewrite dispatch_skip_normal by (eexists; reflexivity)).
  rewrite dispatch_use_error.
  destruct (errorHandler_answers env (http_error 400 "Unexpected token in JSON")
              c6 400 eq_refl) as (c' & -> & _ & Hstatus & Hsent).
  cbn [fst snd List.app take pipeline]. rewrite Hm6 in Hsent.
  split; [done|]. split; [exact Hstatus|]. split.
  - intros Hhead. by rewrite Hsent, Hhead.
  - intros Hhead. rewrite Hhead in Hsent. cbn [bodiless orb] in Hsent.
    unfold body_field. rewrite Hsent, Hid6.
    by destruct (error_body_fields
                   (if String.eqb (NODE_ENV env) "production"
                    then VStr "Internal server error"
                    else exn_field (http_error 400 "Unexpected token in JSON")
                           "message") (VStr id)) as (? & _ & ?).
Qed.

Lemma malformed_json_rejected_witness :
  let out := serve development_env (spec_requestLogger "req-1") login_router
               no_routes
               (post "/api/auth/login" ApplicationJson
                  (mkPayload 2 (Some (VNum 42)) None)) in
  out.1 = [SAddRequestId; SMorgan; SRequestLogger; SSecurityLogger; SCors;
           SJson; SErrorHandler]
  ∧ statusCode out.2 = VNum 400
  ∧ body_field out.2 "success" = VBool false
  ∧ body_field out.2 "requestId" = VStr "req-1".
Proof.
  cbn zeta.
  assert (Hlen : (0 < payload_length (mkPayload 2 (Some (VNum 42)) None)
                  ≤ bytes_mb 10)%Z)
    by (split; [reflexivity | discriminate]).
  destruct (malformed_json_rejected development_env "req-1" login_router
              no_routes
              (post "/api/auth/login" ApplicationJson
                 (mkPayload 2 (Some (VNum 42)) None))
              (mkPayload 2 (Some (VNum 42)) None)
              eq_refl eq_refl eq_refl Hlen
              (or_intror (ex_intro _ (VNum 42) (conj eq_refl eq_refl))))
    as (Htrace & Hstatus & _ & Hbody).
  split; [exact Htrace|]. split; [exact Hstatus|].
  apply Hbody. reflexivity.
Defined.

(** *** What a route receives, and what becomes of its outcome *)




(** *** CORS *)

(** X16: every preflight (OPTIONS) request is answered by the CORS layer
    itself, whatever its path and whatever the routers are: status 204, no
    body, the [Access-Control-Allow-Origin] header exactly when the origin
    is on the allow-list, and no body parser, route or final handler
    runs. *)
Theorem preflight_answered_by_cors env id auth clients m :
  method m = OPTIONS →
  let out := serve env (spec_requestLogger id) auth clients m in
  out.1 = [SAddRequestId; SMorgan; SRequestLogger; SSecurityLogger; SCors]
  ∧ statusCode out.2 = VNum 204
  ∧ sent out.2 = None
  ∧ header out.2 "Access-Control-Allow-Origin"
    = (if origin_allowed (cors_options env) m then origin m else None).
Proof.
  intros Hmethod. cbn zeta. rewrite serve_trace, serve_response.
  unfold app.
  do 4 (rewrite dispatch_use; cbn [addRequestId morganMiddleware
    requestLogger securityLogger spec_requestLogger]).
  rewrite dispatch_use. unfold cors, origin_allowed.
  cbn [req log with_req setHeader with_res start message_of set_requestId res].
  rewrite Hmethod. cbn [is_OPTIONS fst snd].
  split; [done|].
  destruct (origin m) as [og|]; [destruct (existsb _ _)|]; cbn; done.
Qed.

Lemma preflight_answered_by_cors_witness :
  let out := serve development_env (spec_requestLogger "req-1") login_router
               no_routes (from OPTIONS "/api/auth/login" "http://localhost:5173") in
  out.1 = [SAddRequestId; SMorgan; SRequestLogger; SSecurityLogger; SCors]
  ∧ statusCode out.2 = VNum 204
  ∧ sent out.2 = None
  ∧ header out.2 "Access-Control-Allow-Origin"
    = (if origin_allowed (cors_options development_env)
            (from OPTIONS "/api/auth/login" "http://localhost:5173")
       then origin (from OPTIONS "/api/auth/login" "http://localhost:5173")
       else None).
Proof.
  apply (preflight_answered_by_cors development_env "req-1" login_router
           no_routes (from OPTIONS "/api/auth/login" "http://localhost:5173")).
  reflexivity.
Defined.

Lemma production_match {A} (s : string) (a b : A) :
  match s with "production" => a | _ => b end
  = if String.eqb s "production" then a else b.
Proof.
  do 11 (destruct s as [|[[] [] [] [] [] [] [] []] s]; try reflexivity).
Qed.

(** X17: the two places that read the runtime mode agree: the error
    handler hides the error's message exactly when CORS uses the
    production allow-list; and the mode is never empty (an unset or empty
    NODE_ENV counts as development). *)
Theorem mode_checks_agree env :
  (NODE_ENV env = "production"
   ↔ cors_origin (cors_options env) = ["https://yourdomain.com"])
  ∧ NODE_ENV env ≠ ""
  ∧ (process_env_NODE_ENV env = None ∨ process_env_NODE_ENV env = Some "" →
     NODE_ENV env = "development").
Proof.
  unfold NODE_ENV, cors_options. cbn [cors_origin].
  destruct (process_env_NODE_ENV env) as [s|].
  - rewrite production_match.
    destruct (String.eqb_spec s "production") as [-> | Hs].
    + split; [done|]. split; [done|]. intros [H | H]; discriminate.
    + destruct (String.eqb_spec s "") as [-> | Hne].
      * split; [split; discriminate|]. split; [discriminate | done].
      * split; [split; [done | discriminate]|]. split; [done|].
        intros [H | H]; [discriminate | by inversion H].
  - split; [split; discriminate|]. split; [discriminate | done].
Qed.

Lemma mode_checks_agree_witness :
  NODE_ENV (mkEnv (Some "") "2025-01-01T00:00:00.000Z" 0 0%Q) = "development".
Proof.
  apply (proj2 (proj2 (mode_checks_agree
                         (mkEnv (Some "") "2025-01-01T00:00:00.000Z" 0 0%Q)))).
  by right.
Defined.

Lemma find_app_None {A} (f : A → bool) (l k : list A) :
  List.find f l = None → List.find f (l ++ k) = List.find f k.
Proof.
  induction l as [|x l IH]; [done|]. simpl.
  destruct (f x); [done | exact IH].
Qed.

(** X18: the CORS layer never rejects a request.  Whatever the origin, a
    request that is not a preflight is passed on unchanged, with its status
    and body untouched; the origin only decides whether the response gets
    the [Access-Control-Allow-Origin] header, which echoes the origin
    exactly when it is on the allow-list of the mode. *)
Theorem cors_never_rejects env c :
  (∀ e c', cors (cors_options env) c ≠ NextErr e c')
  ∧ (is_OPTIONS (method (req c)) = false →
     header (res c) "Access-Control-Allow-Origin" = None →
     ∃ c', cors (cors_options env) c = Next c'
           ∧ req c' = req c
           ∧ statusCode (res c') = statusCode (res c)
           ∧ sent (res c') = sent (res c)
           ∧ header (res c') "Access-Control-Allow-Origin"
             = if origin_allowed (cors_options env) (req c)
               then origin (req c) else None).
Proof.
  split.
  - intros e c'. unfold cors. by destruct (is_OPTIONS _).
  - intros Hopt Hnone. eexists. split; [by apply cors_next|].
    split; [apply cors_req|].
    destruct (cors_res (cors_options env) c Hopt) as [-> ->].
    do 2 (split; [done|]).
    unfold header in *. destruct (List.find _ (headers (res c))) eqn:Hfind;
      [done|].
    unfold cors, origin_allowed. rewrite Hopt.
    cbn [cors_options cors_credentials conn_of].
    destruct (origin (req c)) as [og|]; [destruct (existsb _ _)|];
      cbn [setHeader with_res res headers];
      rewrite <- ?app_assoc, find_app_None by exact Hfind; done.
Qed.

Lemma cors_never_rejects_witness :
  let c := conn_of (addRequestId (spec_requestLogger "req-1")
                      (start (from GET "/api/clients" "https://elsewhere.example"))) in
  ∃ c', cors (cors_options development_env) c = Next c'
        ∧ req c' = req c
        ∧ statusCode (res c') = statusCode (res c)
        ∧ sent (res c') = sent (res c)
        ∧ header (res c') "Access-Control-Allow-Origin"
          = if origin_allowed (cors_options development_env) (req c)
            then origin (req c) else None.
Proof.
  cbn zeta.
  refine (proj2 (cors_never_rejects development_env
                   (conn_of (addRequestId (spec_requestLogger "req-1")
                      (start (from GET "/api/clients"
                                "https://elsewhere.example"))))) _ _);
    reflexivity.
Defined.

(** X19: the message and the stack of the error are written to the error
    log in every mode, whatever becomes of the answer; and in production
    the body that the error handler sends for a request not yet answered,
    when it sends one, does not depend on the error at all: only the status
    does, and with it whether there is a body. *)
Theorem production_body_independent_of_error env err c :
  let c' := conn_of (errorHandler env err c) in
  (∃ entry, entry ∈ logs c'
            ∧ level entry = "error"
            ∧ exn_field err "message" ∈ parts entry)
  ∧ mkLog "error" [exn_field err "stack"] ∈ logs c'
  ∧ (NODE_ENV env = "production" → sent (res c) = None →
     ∀ b, sent (res c') = Some b →
       b = wire (VObj [("success", VBool false);
                       ("message", VStr "Something went wrong!");
                       ("error", VStr "Internal server error");
                       ("requestId", requestId (req c))])).
Proof.
  cbn zeta. split; [|split].
  - unfold errorHandler. rewrite status_json_logs. cbn [log logs].
    eexists. split; [apply elem_of_app; left; apply elem_of_app; right; by left|].
    split; [reflexivity|].
    cbn [parts]. apply elem_of_app. right. apply elem_of_app. right.
    right. by left.
  - unfold errorHandler. rewrite status_json_logs. cbn [log logs].
    apply elem_of_app. right. by left.
  - intros Hmode Hnone b.
    destruct (status_code (js_or (exn_field err "status") (VNum 500)))
      as [n|] eqn:Hcode.
    + destruct (errorHandler_answers env err c n Hcode)
        as (c' & -> & _ & _ & Hsent).
      cbn [conn_of]. rewrite Hsent, Hmode.
      change (String.eqb "production" "production") with true.
      destruct (is_HEAD _ || bodiless n); [done|]. by intros [= <-].
    + destruct (errorHandler_throws env err c Hcode) as (c' & -> & _ & Hres).
      cbn [conn_of]. by rewrite Hres, Hnone.
Qed.

Lemma production_body_independent_of_error_witness :
  sent (res (conn_of (errorHandler production_env boom (start (bare GET "/")))))
  = Some (wire (VObj [("success", VBool false);
                      ("message", VStr "Something went wrong!");
                      ("error", VStr "Internal server error");
                      ("requestId", VUndef)])).
Proof.
  assert (H := proj2 (proj2 (production_body_independent_of_error
                               production_env boom (start (bare GET "/"))))
                 eq_refl eq_refl).
  cbn zeta in H.
  destruct (sent (res (conn_of (errorHandler production_env boom
                                  (start (bare GET "/")))))) as [b|] eqn:Hsent.
  - by rewrite (H b eq_refl).
  - vm_compute in Hsent. discriminate.
Defined.

(** *** The database connection *)

Lemma connects_app t1 t2 : connects (t1 ++ t2) = connects t1 + connects t2.
Proof. unfold connects. by rewrite List.filter_app, length_app. Qed.

Lemma timers_app t1 t2 : timers (t1 ++ t2) = (timers t1 ++ timers t2)%list.
Proof. unfold timers. by rewrite omap_app. Qed.

Lemma last_app_nonempty {A} (l k : list A) x :
  last k = Some x → last (l ++ k) = Some x.
Proof.
  intros Hk. destruct k as [|y k]; [done|].
  induction l as [|z l IH]; [done|]. simpl.
  destruct (l ++ y :: k)%list eqn:E; [by destruct l|exact IH].
Qed.

(** X20: [connectWithRetry] tries again after every failed connection,
    always 5000 ms later and without a bound on the number of tries: after
    [n] failures it has called [mongoose.connect] [n + 1] times and armed
    [n] timers.  It stops at the first success: nothing is scheduled after
    it, whatever would have come next. *)
Theorem connect_retries_until_success uri (fails : list Exn) rest :
  let pending := connectWithRetry uri (Some <$> fails) in
  let t := connectWithRetry uri ((Some <$> fails) ++ None :: rest) in
  connects pending = S (length fails)
  ∧ timers pending = replicate (length fails) 5000%Z
  ∧ last pending = Some (MongooseConnect uri)
  ∧ connects t = S (length fails)
  ∧ timers t = replicate (length fails) 5000%Z
  ∧ last t = Some (LoggerInfo "✅ MongoDB connected successfully")
  ∧ t = connectWithRetry uri ((Some <$> fails) ++ [None]).
Proof.
  cbn zeta. induction fails as [|err fails IH]; [done|].
  destruct IH as (Hc & Ht & Hl & Hc' & Ht' & Hl' & Heq).
  rewrite !fmap_cons, <- !app_comm_cons. cbn [connectWithRetry].
  rewrite !connects_app, !timers_app, Hc, Ht, Hc', Ht'.
  rewrite (last_app_nonempty _ _ _ Hl), (last_app_nonempty _ _ _ Hl').
  rewrite <- Heq. done.
Qed.

Example two_failures_then_connected :
  connectWithRetry (Some "mongodb://db/richieat") [Some boom; Some boom; None]
  = [LogConnectionAttempt; MongooseConnect (Some "mongodb://db/richieat");
     LogConnectionError boom;
     LoggerError "❌ MongoDB connection failed. Retrying in 5 seconds...";
     SetTimeout 5000;
     LogConnectionAttempt; MongooseConnect (Some "mongodb://db/richieat");
     LogConnectionError boom;
     LoggerError "❌ MongoDB connection failed. Retrying in 5 seconds...";
     SetTimeout 5000;
     LogConnectionAttempt; MongooseConnect (Some "mongodb://db/richieat");
     LogConnectionSuccess; LoggerInfo "✅ MongoDB connected successfully"].
Proof. reflexivity. Qed.

End ServerFacts.

(** ** Properties of the route table *)

Module AppFacts.

Import App.

(** *** Locations without escapes *)

Lemma decode_plain s : plain s = true → decodeURIComponent s = Some s.
Proof.
  unfold decodeURIComponent. induction s as [|a s IH]; [done|].
  cbn [plain decode]. intros H.
  apply andb_true_iff in H as [H Hs]. apply andb_true_iff in H as [Ha _].
  apply negb_true_iff in Ha. rewrite Ha. by rewrite (IH Hs).
Qed.

Lemma escape_slashes_plain s : plain s = true → escape_slashes s = s.
Proof.
  induction s as [|a s IH]; [done|]. cbn [plain escape_slashes]. intros H.
  apply andb_true_iff in H as [H Hs]. apply andb_true_iff in H as [_ Ha].
  apply negb_true_iff in Ha. rewrite Ha. by rewrite (IH Hs).
Qed.

Lemma restore_slashes_cons a s :
  Ascii.eqb a "%" = false →
  restore_slashes (String a s) = String a (restore_slashes s).
Proof. intros Ha. destruct s as [|b [|c s]]; cbn [restore_slashes]; by rewrite ?Ha. Qed.

Lemma restore_slashes_plain s : plain s = true → restore_slashes s = s.
Proof.
  induction s as [|a s IH]; [done|]. cbn [plain]. intros H.
  apply andb_true_iff in H as [H Hs]. apply andb_true_iff in H as [Ha _].
  apply negb_true_iff in Ha. by rewrite (restore_slashes_cons _ _ Ha), (IH Hs).
Qed.

Lemma decodePath_plain loc : forallb plain loc = true → decodePath loc = loc.
Proof.
  unfold decodePath. induction loc as [|v loc IH]; [done|].
  cbn [forallb decode_segments]. intros H. apply andb_true_iff in H as [Hv Hloc].
  rewrite (decode_plain v Hv), (escape_slashes_plain v Hv).
  specialize (IH Hloc). destruct (decode_segments loc); by rewrite ?IH.
Qed.

(** *** The table *)

(** Case analysis on a decoded location, its segments compared in lower
    case with the fixed text of the paths. *)
Ltac by_segments :=
  cbn -[String.eqb];
  repeat match goal with
  | |- context [String.eqb "" ?x] =>
      is_var x; destruct (String.eqb_spec "" x); [subst x|];
      cbn -[String.eqb]
  | |- context [String.eqb ?x ""] =>
      is_var x; destruct (String.eqb_spec x ""); [subst x|];
      try congruence; cbn -[String.eqb]
  | |- context [forallb ?f ?l] =>
      is_var l; destruct (forallb f l); cbn -[String.eqb]
  end;
  repeat match goal with
  | |- context [String.eqb ?a (Server.lower ?x)] =>
      is_var x; generalize (Server.lower x); intro
  end;
  repeat match goal with
  | |- context [String.eqb ?a ?b] =>
      destruct (String.eqb_spec a b); try discriminate; try congruence; subst;
      cbn -[String.eqb]
  end.

(** What a decoded location resolves to, against the paths it matches. *)
Lemma resolve_in_cases l :
  let ms := List.filter (fun pc => match match_path pc.1 l with
                                   | Some _ => true
                                   | None => false
                                   end) page_paths in
  match resolve_in routes l with
  | Some (Public c ps) => is_dashboard_page c = false ∧ ms ≠ []
  | Some (Protected c ps) => is_dashboard_page c = true ∧ ms ≠ []
  | Some (Navigate to r) => to = [] ∧ r = true ∧ ms = []
  | None => False
  end
  ∧ (length ms ≤ 1)%nat.
Proof.
  unfold routes, page_paths.
  destruct l as [|x [|y [|z l]]]; by_segments; (split; [done | simpl; lia]).
Qed.

Lemma resolve_cases loc :
  match resolve loc with
  | Some (Public c ps) => is_dashboard_page c = false ∧ matching loc ≠ []
  | Some (Protected c ps) => is_dashboard_page c = true ∧ matching loc ≠ []
  | Some (Navigate to r) => to = [] ∧ r = true ∧ matching loc = []
  | None => False
  end.
Proof. apply (resolve_in_cases (decodePath loc)). Qed.

Example root_renders_home : resolve [] = Some (Public Home []).
Proof. reflexivity. Qed.

Example clients_list_is_protected :
  resolve ["Clients"] = Some (Protected ClientsPage []).
Proof. reflexivity. Qed.

Example deep_path_redirects :
  resolve ["clients"; "42"; "edit"] = Some (Navigate [] true).
Proof. reflexivity. Qed.

(** [/clients/] is [/clients]; an escaped parameter comes out decoded. *)
Example trailing_slash_is_ignored :
  resolve ["clients"; ""] = Some (Protected ClientsPage []).
Proof. reflexivity. Qed.

Example escaped_parameter_is_decoded :
  resolve ["clients"; "a%20b"]
  = Some (Protected ClientDetailView [("clientId", "a b")]).
Proof. reflexivity. Qed.



(** X10: the four dashboard pages ([Dashboard], [AdvisorProfile],
    [ClientsPage], [ClientDetailView]) are rendered only inside the
    [ProtectedRoute] layout, and no other page is rendered inside it. *)
Theorem dashboard_pages_only_under_protected_route loc c ps :
  (resolve loc = Some (Public c ps) → is_dashboard_page c = false)
  ∧ (resolve loc = Some (Protected c ps) → is_dashboard_page c = true).
Proof.
  pose proof (resolve_cases loc) as H.
  split; intros Hr; rewrite Hr in H; by destruct H.
Qed.

Lemma dashboard_pages_only_under_protected_route_witness :
  is_dashboard_page ClientDetailView = true.
Proof.
  apply (proj2 (dashboard_pages_only_under_protected_route
                  ["clients"; "c-17"] ClientDetailView [("clientId", "c-17")])).
  reflexivity.
Defined.

(** X11: the route table is unambiguous: no location matches more than one
    of its paths, so the order and the ranking of the routes never decide
    what is rendered. *)
Theorem route_table_is_unambiguous loc : (length (matching loc) ≤ 1)%nat.
Proof. apply (resolve_in_cases (decodePath loc)). Qed.

(** X12: the two parameterized routes hand on a second segment that is
    not empty and has no escapes as it is: for [id] and [t] without [%],
    [/clients/<id>] renders the protected [ClientDetailView] with
    [clientId = id], and [/client-onboarding/<t>] renders the public
    [ClientOnboardingForm] with [token = t], the first segment being matched
    without regard to case. *)
Theorem parameter_routes_bind_their_segment x v :
  v ≠ "" → plain x = true → plain v = true →
  (Server.lower x = "clients" →
     resolve [x; v] = Some (Protected ClientDetailView [("clientId", v)]))
  ∧ (Server.lower x = "client-onboarding" →
     resolve [x; v] = Some (Public ClientOnboardingForm [("token", v)])).
Proof.
  intros Hv Hx Hpv. unfold resolve.
  rewrite decodePath_plain by (cbn [forallb]; by rewrite Hx, Hpv).
  pose proof (restore_slashes_plain v Hpv) as Hrestore.
  destruct v as [|b v]; [done|].
  unfold routes. split; intros Hl.
  - destruct x as [|a x]; [discriminate Hl|].
    cbn -[String.eqb restore_slashes Server.lower]. rewrite Hl.
    cbn -[restore_slashes]. by rewrite Hrestore.
  - destruct x as [|a x]; [discriminate Hl|].
    cbn -[String.eqb restore_slashes Server.lower]. rewrite Hl.
    cbn -[restore_slashes]. by rewrite Hrestore.
Qed.

Lemma parameter_routes_bind_their_segment_witness :
  resolve ["Clients"; "c-17"]
  = Some (Protected ClientDetailView [("clientId", "c-17")])
  ∧ resolve ["client-onboarding"; "Tok-9"]
    = Some (Public ClientOnboardingForm [("token", "Tok-9")]).
Proof.
  split.
  - apply (proj1 (parameter_routes_bind_their_segment "Clients" "c-17"
                    ltac:(discriminate) eq_refl eq_refl)).
    reflexivity.
  - apply (proj2 (parameter_routes_bind_their_segment
                    "client-onboarding" "Tok-9"
                    ltac:(discriminate) eq_refl eq_refl)).
    reflexivity.
Defined.

End AppFacts.
